(** * dynamic_deadline: the webhook server of [server.py]

    A shallow embedding of the event pipeline of [server.py]: the
    [/webhook] endpoint, the event-level and update-level deduplication
    through the process-wide set [processed_events], the priority based
    due-date rule and the cascade over the in-progress tasks of a project.

    The program is dynamically typed and works on decoded JSON, so the
    embedding keeps the values as JSON trees and gives every Python
    primitive the code uses ([d.get], [d[k]], [x in d], [.lower()],
    truthiness, iteration, hashing) its run-time meaning, exceptions
    included.  The task service reached through [requests] is a parameter:
    every theorem holds for every behaviour of that service. *)

From Stdlib Require Import ZArith String Ascii List Bool Lia.
From stdpp Require Import base decidable countable gmap sets strings.

Set Warnings "-register-all".
Open Scope string_scope.
Open Scope Z_scope.
Open Scope list_scope.
Import ListNotations.

(** ** Python values and exceptions *)

Module Py.

(** The exception classes the code can meet; all derive from [Exception]. *)
Inductive PyExc : Set :=
| KeyError | TypeError | AttributeError | IndexError | ValueError
| OverflowError | BadRequest | JSONDecodeError | RequestException.

Inductive Exc (A : Type) : Type :=
| Ok (a : A)
| Raise (e : PyExc).
Arguments Ok {A} a.
Arguments Raise {A} e.

Definition ebind {A B} (x : Exc A) (f : A -> Exc B) : Exc B :=
  match x with
  | Ok a => f a
  | Raise e => Raise e
  end.

#[global] Instance Exc_ret : MRet Exc := @Ok.
#[global] Instance Exc_bind : MBind Exc := fun A B f x => ebind x f.

(** A decoded JSON document.  Text is a sequence of 8-bit characters and
    numbers are the integers; an object is the list of its bindings in
    document order, as the [dict] that [json.loads] builds iterates them.
    A [dict] binds a key once: of a list that repeats a key, the first
    binding is the one that is read. *)
Inductive Json : Type :=
| JNull
| JBool (b : bool)
| JInt (n : Z)
| JStr (s : string)
| JArr (xs : list Json)
| JObj (kvs : list (string * Json)).

(** [bool(x)] *)
Definition truthy (x : Json) : bool :=
  match x with
  | JNull => false
  | JBool b => b
  | JInt n => negb (n =? 0)
  | JStr s => negb (String.eqb s "")
  | JArr xs => match xs with [] => false | _ => true end
  | JObj kvs => match kvs with [] => false | _ => true end
  end.

Fixpoint dict_lookup (k : string) (kvs : list (string * Json)) : option Json :=
  match kvs with
  | [] => None
  | (k', v) :: rest => if String.eqb k k' then Some v else dict_lookup k rest
  end.

(** [d.get(k, default)]: only a [dict] has the method. *)
Definition get (d : Json) (k : string) (default : Json) : Exc Json :=
  match d with
  | JObj kvs => Ok (match dict_lookup k kvs with Some v => v | None => default end)
  | _ => Raise AttributeError
  end.

(** [d[k]] for a string [k]. *)
Definition getitem (d : Json) (k : string) : Exc Json :=
  match d with
  | JObj kvs => match dict_lookup k kvs with Some v => Ok v | None => Raise KeyError end
  | _ => Raise TypeError
  end.

(** [x[0]]: the keys of a decoded object are strings, so [0] is never one. *)
Definition index0 (x : Json) : Exc Json :=
  match x with
  | JArr (y :: _) => Ok y
  | JArr [] => Raise IndexError
  | JStr (String c _) => Ok (JStr (String c ""))
  | JStr EmptyString => Raise IndexError
  | JObj _ => Raise KeyError
  | _ => Raise TypeError
  end.

(** The case mapping of [str.lower] on the ASCII letters.  The code only
    compares lower-cased text with the ASCII words "stage", "priority",
    "in progress", "high", "medium" and "low", and no character outside
    ASCII lower-cases to a letter of these words, so the comparisons come
    out as in Python on every text. *)
Definition ascii_lower (c : ascii) : ascii :=
  let n := N_of_ascii c in
  if ((65 <=? n) && (n <=? 90))%N then ascii_of_N (n + 32) else c.

Fixpoint str_lower (s : string) : string :=
  match s with
  | EmptyString => EmptyString
  | String c s' => String (ascii_lower c) (str_lower s')
  end.

(** [x.lower()]: only [str] has the method. *)
Definition lower (x : Json) : Exc string :=
  match x with
  | JStr s => Ok (str_lower s)
  | _ => Raise AttributeError
  end.

Fixpoint str_chars (s : string) : list Json :=
  match s with
  | EmptyString => []
  | String c s' => JStr (String c "") :: str_chars s'
  end.

(** [iter(x)], as a [for] statement calls it: the elements of a list, the
    characters of a string, the keys of a dict. *)
Definition iter (x : Json) : Exc (list Json) :=
  match x with
  | JArr xs => Ok xs
  | JStr s => Ok (str_chars s)
  | JObj kvs => Ok (map (fun kv => JStr (fst kv)) kvs)
  | _ => Raise TypeError
  end.

(** [a == b].  [bool] is a subclass of [int]: [True == 1].  Two dicts are
    equal when they bind the same keys to equal values, in any order. *)
Fixpoint eqb (a b : Json) {struct a} : bool :=
  match a, b with
  | JNull, JNull => true
  | JBool x, JBool y => Bool.eqb x y
  | JBool x, JInt n => (if x then 1 else 0) =? n
  | JInt n, JBool y => n =? (if y then 1 else 0)
  | JInt n, JInt m => n =? m
  | JStr s, JStr t => String.eqb s t
  | JArr xs, JArr ys =>
      (fix go (xs ys : list Json) {struct xs} : bool :=
         match xs, ys with
         | [], [] => true
         | x :: xs', y :: ys' => eqb x y && go xs' ys'
         | _, _ => false
         end) xs ys
  | JObj kvs, JObj kvs' =>
      (length kvs =? length kvs')%nat &&
      (fix go (kvs : list (string * Json)) {struct kvs} : bool :=
         match kvs with
         | [] => true
         | (k, v) :: rest =>
             match dict_lookup k kvs' with
             | Some v' => eqb v v' && go rest
             | None => false
             end
         end) kvs
  | _, _ => false
  end.

Fixpoint str_contains (needle hay : string) : bool :=
  String.prefix needle hay ||
  match hay with
  | EmptyString => false
  | String _ hay' => str_contains needle hay'
  end.

(** [k in x] for a string [k]: a key of a dict, an element of a list, a
    substring of a string. *)
Definition contains (k : string) (x : Json) : Exc bool :=
  match x with
  | JObj kvs => Ok (match dict_lookup k kvs with Some _ => true | None => false end)
  | JArr xs => Ok (existsb (eqb (JStr k)) xs)
  | JStr s => Ok (str_contains k s)
  | _ => Raise TypeError
  end.

(** What a value contributes to the hash and equality of a tuple that is
    put in a set: [None], a number ([True] and [1] are the same key) or a
    string.  Lists and dicts are unhashable. *)
Inductive Atom : Set :=
| ANone
| ANum (n : Z)
| AStr (s : string).

Definition hashable (x : Json) : Exc Atom :=
  match x with
  | JNull => Ok ANone
  | JBool b => Ok (ANum (if b then 1 else 0))
  | JInt n => Ok (ANum n)
  | JStr s => Ok (AStr s)
  | JArr _ | JObj _ => Raise TypeError
  end.

#[global] Instance Atom_eq_dec : EqDecision Atom.
Proof. solve_decision. Defined.

#[global] Instance Atom_countable : Countable Atom.
Proof.
  refine (inj_countable'
    (fun a => match a with
              | ANone => inl ()
              | ANum n => inr (inl n)
              | AStr s => inr (inr s)
              end)
    (fun x => match x with
              | inl _ => ANone
              | inr (inl n) => ANum n
              | inr (inr s) => AStr s
              end) _).
  intros []; reflexivity.
Defined.

End Py.

(** ** The calendar of [datetime]

    [strptime] and [strftime] at the format ['%Y-%m-%d'] and the addition
    of a [timedelta] of whole days, after the reference implementation of
    the standard library: a date is converted to its proleptic Gregorian
    ordinal (day 1 is 0001-01-01), shifted, and converted back. *)

Module Datetime.
Import Py.

Definition MAXORDINAL : Z := 3652059.  (* 9999-12-31 *)

Definition is_leap (year : Z) : bool :=
  (year mod 4 =? 0) && (negb (year mod 100 =? 0) || (year mod 400 =? 0)).

Definition days_before_year (year : Z) : Z :=
  let y := year - 1 in y * 365 + y / 4 - y / 100 + y / 400.

Definition DAYS_IN_MONTH (month : Z) : Z :=
  match month with
  | 1 => 31 | 2 => 28 | 3 => 31 | 4 => 30 | 5 => 31 | 6 => 30
  | 7 => 31 | 8 => 31 | 9 => 30 | 10 => 31 | 11 => 30 | 12 => 31
  | _ => -1
  end.

Definition DAYS_BEFORE_MONTH (month : Z) : Z :=
  match month with
  | 1 => 0 | 2 => 31 | 3 => 59 | 4 => 90 | 5 => 120 | 6 => 151
  | 7 => 181 | 8 => 212 | 9 => 243 | 10 => 273 | 11 => 304 | 12 => 334
  | _ => -1
  end.

Definition days_in_month (year month : Z) : Z :=
  if (month =? 2) && is_leap year then 29 else DAYS_IN_MONTH month.

Definition days_before_month (year month : Z) : Z :=
  DAYS_BEFORE_MONTH month + (if (2 <? month) && is_leap year then 1 else 0).

Definition ymd2ord (year month day : Z) : Z :=
  days_before_year year + days_before_month year month + day.

Definition DI400Y : Z := 146097.
Definition DI100Y : Z := 36524.
Definition DI4Y : Z := 1461.

Definition ord2ymd (ordinal : Z) : Z * Z * Z :=
  let n := ordinal - 1 in
  let n400 := n / DI400Y in
  let n := n mod DI400Y in
  let year := n400 * 400 + 1 in
  let n100 := n / DI100Y in
  let n := n mod DI100Y in
  let n4 := n / DI4Y in
  let n := n mod DI4Y in
  let n1 := n / 365 in
  let n := n mod 365 in
  let year := year + n100 * 100 + n4 * 4 + n1 in
  if (n1 =? 4) || (n100 =? 4) then (year - 1, 12, 31)
  else
    let leapyear := (n1 =? 3) && (negb (n4 =? 24) || (n100 =? 3)) in
    let month := Z.shiftr (n + 50) 5 in
    let preceding :=
      DAYS_BEFORE_MONTH month + (if (2 <? month) && leapyear then 1 else 0) in
    if n <? preceding then
      let month := month - 1 in
      let preceding :=
        preceding
        - (DAYS_IN_MONTH month + (if (month =? 2) && leapyear then 1 else 0)) in
      (year, month, n - preceding + 1)
    else (year, month, n - preceding + 1).

Definition digit (c : ascii) : option Z :=
  let n := Z.of_N (N_of_ascii c) in
  if (48 <=? n) && (n <=? 57) then Some (n - 48) else None.

(** [%Y]: four digits. *)
Definition parse_year (s : string) : option (Z * string) :=
  match s with
  | String a (String b (String c (String d rest))) =>
      match digit a, digit b, digit c, digit d with
      | Some a, Some b, Some c, Some d =>
          Some (1000 * a + 100 * b + 10 * c + d, rest)
      | _, _, _, _ => None
      end
  | _ => None
  end.

(** [%m] before the literal [-]: [1[0-2]], [0[1-9]] or [[1-9]]. *)
Definition parse_month (s : string) : option (Z * string) :=
  match s with
  | String a (String b rest) =>
      match digit a with
      | None => None
      | Some da =>
          if Ascii.eqb b "-" then
            if 1 <=? da then Some (da, rest) else None
          else
            match digit b, rest with
            | Some db, String c rest' =>
                if Ascii.eqb c "-" then
                  if (da =? 1) && (db <=? 2) then Some (10 + db, rest')
                  else if (da =? 0) && (1 <=? db) then Some (db, rest')
                  else None
                else None
            | _, _ => None
            end
      end
  | _ => None
  end.

(** [%d] up to the end of the text: [3[01]], [[12]\d], [0[1-9]], [[1-9]]
    or a blank and [[1-9]]. *)
Definition parse_day (s : string) : option Z :=
  match s with
  | String a EmptyString =>
      match digit a with
      | Some d => if 1 <=? d then Some d else None
      | None => None
      end
  | String a (String b EmptyString) =>
      match digit b with
      | None => None
      | Some db =>
          match digit a with
          | Some da =>
              if da =? 3 then (if db <=? 1 then Some (30 + db) else None)
              else if (da =? 1) || (da =? 2) then Some (10 * da + db)
              else if da =? 0 then (if 1 <=? db then Some db else None)
              else None
          | None =>
              if Ascii.eqb a " " then (if 1 <=? db then Some db else None)
              else None
          end
      end
  | _ => None
  end.

(** [datetime.strptime(x, '%Y-%m-%d')], as the ordinal of the date. *)
Definition strptime (x : Json) : Exc Z :=
  match x with
  | JStr s =>
      match parse_year s with
      | Some (year, String sep s1) =>
          if Ascii.eqb sep "-" then
            match parse_month s1 with
            | Some (month, s2) =>
                match parse_day s2 with
                | Some day =>
                    if (1 <=? year) && (day <=? days_in_month year month)
                    then Ok (ymd2ord year month day)
                    else Raise ValueError
                | None => Raise ValueError
                end
            | None => Raise ValueError
            end
          else Raise ValueError
      | _ => Raise ValueError
      end
  | _ => Raise TypeError
  end.

(** [d + timedelta(days=days)] *)
Definition add_days (ordinal days : Z) : Exc Z :=
  let o := ordinal + days in
  if (1 <=? o) && (o <=? MAXORDINAL) then Ok o else Raise OverflowError.

Definition digit_char (d : Z) : ascii := ascii_of_N (Z.to_N (48 + d)).

Definition pad2 (n : Z) : string :=
  String (digit_char (n / 10)) (String (digit_char (n mod 10)) "").

Definition pad4 (n : Z) : string :=
  String (digit_char (n / 1000))
    (String (digit_char (n / 100 mod 10)) (pad2 (n mod 100))).

(** [d.strftime('%Y-%m-%d')], the year on four digits as the library
    documents it. *)
Definition strftime (ordinal : Z) : string :=
  let '(year, month, day) := ord2ymd ordinal in
  pad4 year +:+ "-" +:+ pad2 month +:+ "-" +:+ pad2 day.

(** [(datetime.strptime(x, '%Y-%m-%d') + timedelta(days=2)).strftime('%Y-%m-%d')] *)
Definition shift_two_days (x : Json) : Exc string :=
  d ← strptime x; d' ← add_days d 2; mret (strftime d').

End Datetime.

(** ** The server *)

Module Server.
Import Py.

(** *** The task service behind [requests]

    A response is read through [status_code] and [json()] only (the text is
    printed, never inspected).  The service is any state machine over a
    world [W]: a call may raise (no connection), answer with any status and
    any body, and change the world in any way.  [svc_utcnow] is the day
    [datetime.utcnow()] falls on, as a proleptic Gregorian ordinal. *)

Record Response : Type := {
  status_code : Z;
  json : Exc Json
}.

Record Service (W : Type) : Type := {
  (** [requests.get(f".../tasks/{task_id}", ...)] *)
  svc_get_task : Json -> W -> Exc Response * W;
  (** [requests.get(f".../projects/{project_gid}/tasks", ...)] *)
  svc_get_project_tasks : Json -> W -> Exc Response * W;
  (** [requests.put(f".../tasks/{task_id}", json={"data": {"due_on": d}})] *)
  svc_put_due_on : Json -> string -> W -> Exc Response * W;
  svc_utcnow : W -> Z
}.
Arguments svc_get_task {W} _ _ _.
Arguments svc_get_project_tasks {W} _ _ _.
Arguments svc_put_due_on {W} _ _ _ _.
Arguments svc_utcnow {W} _ _.

(** The outbound requests, in the order they are issued. *)
Inductive Call : Type :=
| GetTask (task_id : Json)
| GetProjectTasks (project_gid : Json)
| PutDueOn (task_id : Json) (due_on : string).

(** *** The ledger [processed_events]

    One set holds the 3-tuples [(created_at, gid, action)] of the events
    seen and the 2-tuples [(task_id, new_due_date)] of the cascade's
    successful updates.  Tuples of different lengths are never equal. *)

Inductive Marker : Set :=
| EventMarker (created_at gid action : Atom)
| UpdateMarker (task_id due_on : Atom).

#[global] Instance Marker_eq_dec : EqDecision Marker.
Proof. solve_decision. Defined.

#[global] Instance Marker_countable : Countable Marker.
Proof.
  refine (inj_countable'
    (fun m => match m with
              | EventMarker c g a => inl (c, g, a)
              | UpdateMarker t d => inr (t, d)
              end)
    (fun x => match x with
              | inl (c, g, a) => EventMarker c g a
              | inr (t, d) => UpdateMarker t d
              end) _).
  intros []; reflexivity.
Defined.

(** *** The request and the response of the endpoint *)

Inductive Method : Set := GET | HEAD | POST.

Record Request : Type := {
  method : Method;
  (** [request.headers.get('X-Hook-Secret')] *)
  x_hook_secret : option string;
  (** [request.json]: the decoded body, or the exception of the decoder *)
  request_json : Exc Json
}.

(** A request without the challenge header, or with an empty one. *)
Definition no_challenge (request : Request) : Prop :=
  x_hook_secret request = None \/ x_hook_secret request = Some "".

Inductive Body : Type :=
| EmptyBody
| JsonBody (j : Json)
(** [jsonify({"status": "error", "message": str(e)})] *)
| ErrorBody (e : PyExc).

Record HttpResponse : Type := {
  status : Z;
  body : Body;
  headers : list (string * string)
}.

Section WithService.
Context {W : Type} (svc : Service W).

Record State : Type := {
  processed_events : gset Marker;
  world : W;
  calls : list Call
}.

(** Computations that read and write the state and may raise; the state
    reached when an exception is raised is kept, as in Python. *)
Definition M (A : Type) : Type := State -> Exc A * State.

#[global] Instance M_ret : MRet M := fun A a s => (Ok a, s).
#[global] Instance M_bind : MBind M := fun A B f m s =>
  match m s with
  | (Ok a, s') => f a s'
  | (Raise e, s') => (Raise e, s')
  end.

Definition lift {A} (x : Exc A) : M A := fun s => (x, s).

(** [try: body except Exception as e: handler] *)
Definition try_except {A} (body : M A) (handler : PyExc -> M A) : M A :=
  fun s =>
    match body s with
    | (Ok a, s') => (Ok a, s')
    | (Raise e, s') => handler e s'
    end.

Fixpoint for_each {A} (xs : list A) (body : A -> M unit) : M unit :=
  match xs with
  | [] => mret tt
  | x :: rest => body x;; for_each rest body
  end.

(** What the service answers to a request, and the world it leaves. *)
Definition answer (c : Call) (w : W) : Exc Response * W :=
  match c with
  | GetTask task_id => svc_get_task svc task_id w
  | GetProjectTasks project_gid => svc_get_project_tasks svc project_gid w
  | PutDueOn task_id due_on => svc_put_due_on svc task_id due_on w
  end.

Definition request (c : Call) : M Response := fun s =>
  let '(r, w) := answer c (world s) in
  (r, {| processed_events := processed_events s; world := w;
         calls := calls s ++ [c] |}).

Definition utcnow : M Z := fun s => (Ok (svc_utcnow svc (world s)), s).

(** [key in processed_events] *)
Definition ledger_mem (key : Exc Marker) : M bool := fun s =>
  match key with
  | Ok k => (Ok (bool_decide (k ∈ processed_events s)), s)
  | Raise e => (Raise e, s)
  end.

(** [processed_events.add(key)] *)
Definition ledger_add (key : Exc Marker) : M unit := fun s =>
  match key with
  | Ok k => (Ok tt, {| processed_events := {[k]} ∪ processed_events s;
                       world := world s; calls := calls s |})
  | Raise e => (Raise e, s)
  end.

(** *** [fetch_task_details] *)
Definition fetch_task_details (task_id : Json) : M Json :=
  try_except
    (response ← request (GetTask task_id);
     if status_code response =? 200 then
       body ← lift (json response);
       lift (get body "data" JNull)
     else mret JNull)
    (fun _ => mret JNull).

(** *** [get_in_progress_tasks] *)

(** The inner loop over the custom fields of one task: [true] when the
    task is appended (and the loop left by [break]). *)
Fixpoint in_progress_scan (custom_fields : list Json) : Exc bool :=
  match custom_fields with
  | [] => mret false
  | field :: rest =>
      name ← get field "name" (JStr "");
      name ← lower name;
      if String.eqb name "stage" then
        enum_value ← get field "enum_value" JNull;
        if truthy enum_value then
          enum_value ← getitem field "enum_value";
          stage_value ← get enum_value "name" (JStr "");
          stage_value ← lower stage_value;
          if String.eqb stage_value "in progress" then mret true
          else in_progress_scan rest
        else in_progress_scan rest
      else in_progress_scan rest
  end.

Fixpoint filter_in_progress (tasks : list Json) : Exc (list Json) :=
  match tasks with
  | [] => mret []
  | task :: rest =>
      custom_fields ← get task "custom_fields" (JArr []);
      custom_fields ← iter custom_fields;
      hit ← in_progress_scan custom_fields;
      in_progress_tasks ← filter_in_progress rest;
      mret (if hit : bool then task :: in_progress_tasks else in_progress_tasks)
  end.

Definition get_in_progress_tasks (project_gid : Json) : M (list Json) :=
  try_except
    (response ← request (GetProjectTasks project_gid);
     if status_code response =? 200 then
       body ← lift (json response);
       tasks ← lift (get body "data" (JArr []));
       tasks ← lift (iter tasks);
       lift (filter_in_progress tasks)
     else mret [])
    (fun _ => mret []).

(** *** [is_high_priority_in_progress] *)

(** The loop over the custom fields: no [break], so a later field of the
    same name replaces an earlier one. *)
Fixpoint scan_stage_priority (custom_fields : list Json)
    (stage_field priority_field : option Json)
    : Exc (option Json * option Json) :=
  match custom_fields with
  | [] => mret (stage_field, priority_field)
  | field :: rest =>
      name ← get field "name" (JStr "");
      name ← lower name;
      let stage_field :=
        if String.eqb name "stage" then Some field else stage_field in
      name ← get field "name" (JStr "");
      name ← lower name;
      let priority_field :=
        if String.eqb name "priority" then Some field else priority_field in
      scan_stage_priority rest stage_field priority_field
  end.

(** [not field or not field.get('enum_value')], [field] being [None] or the
    field found. *)
Definition field_unset (field : option Json) : Exc bool :=
  match field with
  | None => mret true
  | Some field =>
      if truthy field then
        enum_value ← get field "enum_value" JNull;
        mret (negb (truthy enum_value))
      else mret true
  end.

(** [field['enum_value'].get('name', '').lower()] *)
Definition enum_name (field : option Json) : Exc string :=
  match field with
  | None => Raise TypeError
  | Some field =>
      enum_value ← getitem field "enum_value";
      name ← get enum_value "name" (JStr "");
      lower name
  end.

Definition is_high_priority_in_progress (task_data : Json) : bool :=
  let result : Exc bool :=
    custom_fields ← get task_data "custom_fields" (JArr []);
    custom_fields ← iter custom_fields;
    '(stage_field, priority_field) ← scan_stage_priority custom_fields None None;
    unset ← field_unset stage_field;
    if unset : bool then mret false else
    unset ← field_unset priority_field;
    if unset : bool then mret false else
    stage ← enum_name stage_field;
    priority ← enum_name priority_field;
    mret (String.eqb stage "in progress" && String.eqb priority "high") in
  match result with
  | Ok b => b
  | Raise _ => false
  end.

(** *** [handle_priority_based_due_date] *)

(** The loop that looks for the priority field: left by [break] at the
    first field of that name. *)
Fixpoint find_priority_field (custom_fields : list Json) : Exc (option Json) :=
  match custom_fields with
  | [] => mret None
  | field :: rest =>
      name ← get field "name" (JStr "");
      name ← lower name;
      if String.eqb name "priority" then mret (Some field)
      else find_priority_field rest
  end.

Definition priority_to_days (priority_value : string) : option Z :=
  if String.eqb priority_value "high" then Some 2
  else if String.eqb priority_value "medium" then Some 7
  else if String.eqb priority_value "low" then Some 14
  else None.

Definition handle_priority_based_due_date (task_id task_data : Json) : M unit :=
  try_except
    (existing_due_date ← lift (get task_data "due_on" JNull);
     if truthy existing_due_date then mret tt else
     custom_fields ← lift (get task_data "custom_fields" (JArr []));
     custom_fields ← lift (iter custom_fields);
     priority_field ← lift (find_priority_field custom_fields);
     unset ← lift (field_unset priority_field);
     if unset : bool then mret tt else
     priority_value ← lift (enum_name priority_field);
     match priority_to_days priority_value with
     | None => mret tt
     | Some days_to_add =>
         today ← utcnow;
         day ← lift (Datetime.add_days today days_to_add);
         let new_due_date := Datetime.strftime day in
         update_response ← request (PutDueOn task_id new_due_date);
         mret tt
     end)
    (fun _ => mret tt).

(** *** [is_due_date_updated] and [adjust_due_dates_for_in_progress] *)

Definition update_key (task_id due_on : Json) : Exc Marker :=
  t ← hashable task_id;
  d ← hashable due_on;
  mret (UpdateMarker t d).

Definition is_due_date_updated (task_id current_due_date : Json) : M bool :=
  ledger_mem (update_key task_id current_due_date).

(** The body of the loop over the in-progress tasks; every [continue] is
    an early [mret tt]. *)
Definition adjust_one (excluded_task_id task : Json) : M unit :=
  task_id ← lift (getitem task "gid");
  if eqb task_id excluded_task_id then mret tt else
  task_details ← fetch_task_details task_id;
  if negb (truthy task_details) then mret tt else
  current_due_date ← lift (get task_details "due_on" JNull);
  if negb (truthy current_due_date) then mret tt else
  updated ← is_due_date_updated task_id current_due_date;
  if updated : bool then mret tt else
  new_due_date ← lift (Datetime.shift_two_days current_due_date);
  update_response ← request (PutDueOn task_id new_due_date);
  if status_code update_response =? 200 then
    ledger_add (update_key task_id (JStr new_due_date))
  else mret tt.

Definition adjust_due_dates_for_in_progress
    (excluded_task_id task_data : Json) : M unit :=
  try_except
    (memberships ← lift (get task_data "memberships" (JArr [JObj []]));
     membership ← lift (index0 memberships);
     project ← lift (get membership "project" (JObj []));
     project_gid ← lift (get project "gid" JNull);
     if negb (truthy project_gid) then mret tt else
     in_progress_tasks ← get_in_progress_tasks project_gid;
     for_each in_progress_tasks (adjust_one excluded_task_id))
    (fun _ => mret tt).

(** *** [process_event] *)

(** The tuple [(event['created_at'], event['resource']['gid'],
    event['action'])], as the key it is in the set. *)
Definition event_key (event : Json) : Exc Marker :=
  created_at ← getitem event "created_at";
  resource ← getitem event "resource";
  gid ← getitem resource "gid";
  action ← getitem event "action";
  c ← hashable created_at;
  g ← hashable gid;
  a ← hashable action;
  mret (EventMarker c g a).

(** The [try] block after the duplicate test: the marker is added, the
    task fetched and, for a "changed" action, the two rules run. *)
Definition dispatch (event : Json) : M unit :=
  ledger_add (event_key event);;
  resource ← lift (getitem event "resource");
  task_id ← lift (getitem resource "gid");
  task_data ← fetch_task_details task_id;
  if negb (truthy task_data) then mret tt else
  action ← lift (getitem event "action");
  if eqb action (JStr "changed") then
    has_fields ← lift (contains "custom_fields" task_data);
    (if has_fields : bool
     then handle_priority_based_due_date task_id task_data
     else mret tt);;
    if is_high_priority_in_progress task_data
    then adjust_due_dates_for_in_progress task_id task_data
    else mret tt
  else mret tt.

(** The whole [try] block. *)
Definition process_event_body (event : Json) : M unit :=
  seen ← ledger_mem (event_key event);
  if seen : bool then mret tt else dispatch event.

Definition process_event (event : Json) : M unit :=
  try_except (process_event_body event) (fun _ => mret tt).

(** *** [webhook] *)

Definition handshake (secret : string) : HttpResponse :=
  {| status := 200; body := EmptyBody; headers := [("X-Hook-Secret", secret)] |}.

Definition success : HttpResponse :=
  {| status := 200; body := JsonBody (JObj [("status", JStr "success")]);
     headers := [] |}.

Definition server_error (e : PyExc) : HttpResponse :=
  {| status := 500; body := ErrorBody e; headers := [] |}.

Definition invalid_request : HttpResponse :=
  {| status := 400; body := JsonBody (JObj [("error", JStr "Invalid request")]);
     headers := [] |}.

(** [request.json.get('events', [])], as the sequence the [for] statement
    runs over. *)
Definition request_events (request : Request) : Exc (list Json) :=
  webhook_data ← request_json request;
  events ← get webhook_data "events" (JArr []);
  iter events.

(** The body of the [try] of a [POST]. *)
Definition deliver (request : Request) : M unit :=
  events ← lift (request_events request);
  for_each events process_event.

(** The function after the handshake test: the [POST] branch, and the
    final [return] for every other method. *)
Definition respond (request : Request) (s : State) : HttpResponse * State :=
  match method request with
  | POST =>
      match deliver request s with
      | (Ok _, s') => (success, s')
      | (Raise e, s') => (server_error e, s')
      end
  | _ => (invalid_request, s)
  end.

(** [if x_hook_secret:] holds for a header that is there and not empty. *)
Definition webhook (request : Request) (s : State) : HttpResponse * State :=
  match x_hook_secret request with
  | Some secret =>
      if negb (String.eqb secret "") then (handshake secret, s)
      else respond request s
  | None => respond request s
  end.

(** The state in which the marker [k] was added to the ledger of [s]. *)
Definition mark (k : Marker) (s : State) : State :=
  {| processed_events := {[k]} ∪ processed_events s;
     world := world s; calls := calls s |}.

(** The state after the events of a batch were processed one after the
    other, whatever each of them did. *)
Definition run_events (events : list Json) (s : State) : State :=
  fold_left (fun st event => snd (process_event event st)) events s.

(** The state after a sequence of requests to the endpoint was served. *)
Definition serve (requests : list Request) (s : State) : State :=
  fold_left (fun st request => snd (webhook request st)) requests s.

(** The world after the service has answered a sequence of requests. *)
Definition replay (cs : list Call) (w : W) : W :=
  fold_left (fun w c => snd (answer c w)) cs w.

(** [s'] is reached from [s] by adding markers to the ledger and issuing
    requests that all satisfy [ok]; nothing else acts on the world. *)
Definition steps (ok : Call -> Prop) (s s' : State) : Prop :=
  processed_events s ⊆ processed_events s' /\
  exists new,
    calls s' = calls s ++ new /\
    world s' = replay new (world s) /\
    Forall ok new.

Definition any_call : Call -> Prop := fun _ => True.

(** The requests that are not an update of the task [excluded_task_id]. *)
Definition spares (excluded_task_id : Json) (c : Call) : Prop :=
  match c with
  | PutDueOn task_id _ => eqb task_id excluded_task_id = false
  | _ => True
  end.

(** A computation that, from every state and whether it returns or
    raises, only adds markers and only issues requests that satisfy [ok]. *)
Definition issues_only (ok : Call -> Prop) {A} (m : M A) : Prop :=
  forall s, steps ok s (snd (m s)).

End WithService.

Arguments State W : clear implicits.
Arguments M W A : clear implicits.

End Server.

(** ** The vocabulary of the specification *)

Module Spec.
Import Py.

(** A custom field as the specification sees it: a name and, when one is
    set, the name of its enum value. *)
Record Field : Type := {
  field_name : string;
  field_value : option string
}.

(** The field extractor of the specification: the first field whose name
    is [target] up to case decides; the result is the lower-cased value,
    or nothing when no value is set or no field has the name. *)
Fixpoint extract_field (target : string) (fields : list Field) : option string :=
  match fields with
  | [] => None
  | f :: rest =>
      if String.eqb (str_lower (field_name f)) target
      then option_map str_lower (field_value f)
      else extract_field target rest
  end.

(** The number of fields that carry the name [target] up to case. *)
Fixpoint count_named (target : string) (fields : list Field) : nat :=
  match fields with
  | [] => O
  | f :: rest =>
      if String.eqb (str_lower (field_name f)) target
      then S (count_named target rest)
      else count_named target rest
  end.

(** The last field that carries the name [target] up to case, [init] when
    there is none: what a scan that never stops early ends with. *)
Fixpoint last_field (target : string) (fields : list Field) (init : option Field)
    : option Field :=
  match fields with
  | [] => init
  | f :: rest =>
      last_field target rest
        (if String.eqb (str_lower (field_name f)) target then Some f else init)
  end.

(** The lower-cased value of a field that was found, if it has one. *)
Definition value_of (field : option Field) : option string :=
  match field with
  | Some f => option_map str_lower (field_value f)
  | None => None
  end.

(** The JSON objects that stand for a field: an object with the name under
    ["name"] and, under ["enum_value"], nothing or [null] for an unset
    value and an object with the value's name under ["name"] for a set
    one.  Other bindings are free. *)
Definition field_repr (j : Json) (f : Field) : Prop :=
  exists kvs,
    j = JObj kvs /\
    dict_lookup "name" kvs = Some (JStr (field_name f)) /\
    match field_value f with
    | None =>
        dict_lookup "enum_value" kvs = None \/
        dict_lookup "enum_value" kvs = Some JNull
    | Some v =>
        exists ekvs,
          dict_lookup "enum_value" kvs = Some (JObj ekvs) /\
          dict_lookup "name" ekvs = Some (JStr v)
    end.

(** A field that was looked for and its JSON object, or neither. *)
Definition found_repr (j : option Json) (f : option Field) : Prop :=
  match j, f with
  | None, None => True
  | Some j, Some f => field_repr j f
  | _, _ => False
  end.

End Spec.

(** ** A reference task service

    An in-memory stand-in for the task service, used to run the code on
    concrete inputs: the world is the list of the tasks, in the order a
    listing returns them, and the current day. *)

Module Asana.
Import Py Server.

Record World : Type := {
  today : Z;
  tasks : list Json
}.

Definition gid_is (task_id task : Json) : bool :=
  match get task "gid" JNull with
  | Ok gid => eqb gid task_id
  | Raise _ => false
  end.

Definition in_project (project_gid task : Json) : bool :=
  match (memberships ← get task "memberships" (JArr []);
         membership ← index0 memberships;
         project ← get membership "project" (JObj []);
         get project "gid" JNull) with
  | Ok gid => eqb gid project_gid
  | Raise _ => false
  end.

Fixpoint dict_set (k : string) (v : Json) (kvs : list (string * Json))
    : list (string * Json) :=
  match kvs with
  | [] => [(k, v)]
  | (k', v') :: rest =>
      if String.eqb k k' then (k, v) :: rest else (k', v') :: dict_set k v rest
  end.

Definition set_due_on (due_on : string) (task : Json) : Json :=
  match task with
  | JObj kvs => JObj (dict_set "due_on" (JStr due_on) kvs)
  | _ => task
  end.

Definition not_found : Response :=
  {| status_code := 404; json := Ok (JObj [("errors", JArr [])]) |}.

Definition found (data : Json) : Response :=
  {| status_code := 200; json := Ok (JObj [("data", data)]) |}.

Definition get_task (task_id : Json) (w : World) : Exc Response * World :=
  match find (gid_is task_id) (tasks w) with
  | Some task => (Ok (found task), w)
  | None => (Ok not_found, w)
  end.

Definition get_project_tasks (project_gid : Json) (w : World)
    : Exc Response * World :=
  (Ok (found (JArr (filter (fun t => in_project project_gid t) (tasks w)))), w).

Definition put_due_on (task_id : Json) (due_on : string) (w : World)
    : Exc Response * World :=
  match find (gid_is task_id) (tasks w) with
  | Some task =>
      (Ok (found (set_due_on due_on task)),
       {| today := today w;
          tasks := map (fun t => if gid_is task_id t then set_due_on due_on t else t)
                       (tasks w) |})
  | None => (Ok not_found, w)
  end.

Definition service : Service World := {|
  svc_get_task := get_task;
  svc_get_project_tasks := get_project_tasks;
  svc_put_due_on := put_due_on;
  svc_utcnow := today
|}.

(** The due date the service holds for a task. *)
Definition due_on_of (task_id : Json) (w : World) : option Json :=
  match find (gid_is task_id) (tasks w) with
  | Some task =>
      match get task "due_on" JNull with
      | Ok d => Some d
      | Raise _ => None
      end
  | None => None
  end.

Definition enum_field (name value : string) : Json :=
  JObj [("gid", JStr name); ("name", JStr name);
        ("enum_value", JObj [("name", JStr value)])].

Definition unset_field (name : string) : Json :=
  JObj [("gid", JStr name); ("name", JStr name); ("enum_value", JNull)].

Definition task (gid : string) (due_on : Json) (custom_fields : list Json) : Json :=
  JObj [("gid", JStr gid); ("name", JStr ("task " +:+ gid));
        ("due_on", due_on);
        ("custom_fields", JArr custom_fields);
        ("memberships", JArr [JObj [("project", JObj [("gid", JStr "P")])]])].

Definition event (created_at gid action : string) : Json :=
  JObj [("created_at", JStr created_at);
        ("resource", JObj [("gid", JStr gid); ("resource_type", JStr "task")]);
        ("action", JStr action)].

Definition delivery (events : list Json) : Request :=
  {| method := POST; x_hook_secret := None;
     request_json := Ok (JObj [("events", JArr events)]) |}.

Definition initial (w : World) : State World :=
  {| processed_events := ∅; world := w; calls := [] |}.

(** The scenario of the specification: T1 is the high-priority task that
    moved to "In Progress"; T2 and T3 are in progress in the same project. *)
Definition scenario : World := {|
  today := 738886;  (* 2024-01-01 *)
  tasks :=
    [ task "T1" (JStr "2024-01-10")
        [enum_field "Stage" "In Progress"; enum_field "Priority" "High"];
      task "T2" (JStr "2024-01-05")
        [enum_field "Stage" "In Progress"; enum_field "Priority" "Low"];
      task "T3" (JStr "2024-01-06")
        [enum_field "Stage" "In Progress"; unset_field "Priority"] ]
|}.

(** A world with one task that has no due date and a high priority. *)
Definition backlog : World := {|
  today := 738886;  (* 2024-01-01 *)
  tasks :=
    [ task "T4" JNull
        [enum_field "Stage" "To Do"; enum_field "PRIORITY" "High"] ]
|}.

Definition T1 : Json :=
  task "T1" (JStr "2024-01-10")
    [enum_field "Stage" "In Progress"; enum_field "Priority" "High"].

Definition T2 : Json :=
  task "T2" (JStr "2024-01-05")
    [enum_field "Stage" "In Progress"; enum_field "Priority" "Low"].

(** A task without a due date, of high priority. *)
Definition T4 : Json :=
  task "T4" JNull [enum_field "Stage" "To Do"; enum_field "PRIORITY" "High"].

Definition changed_T1 : Json := event "2024-01-01T10:00:00.000Z" "T1" "changed".

Definition changed_T4 : Json := event "2024-01-01T11:00:00.000Z" "T4" "changed".

Definition added_T2 : Json := event "2024-01-01T10:00:01.000Z" "T2" "added".

Definition key_changed_T1 : Marker :=
  EventMarker (AStr "2024-01-01T10:00:00.000Z") (AStr "T1") (AStr "changed").

Definition key_added_T2 : Marker :=
  EventMarker (AStr "2024-01-01T10:00:01.000Z") (AStr "T2") (AStr "added").

(** A body that is not JSON. *)
Definition undecodable : Request :=
  {| method := POST; x_hook_secret := None; request_json := Raise BadRequest |}.

(** A delivery that carries the challenge header with an empty value. *)
Definition empty_challenge : Request :=
  {| method := POST; x_hook_secret := Some "";
     request_json := Ok (JObj [("events", JArr [changed_T1])]) |}.

Definition challenge : Request :=
  {| method := POST; x_hook_secret := Some "abc123";
     request_json := Ok (JObj [("events", JArr [changed_T1])]) |}.

(** Two fields named "priority" and one stage field. *)
Definition two_priorities : list Json :=
  [enum_field "Priority" "High"; enum_field "Priority" "Low";
   enum_field "Stage" "In Progress"].

Definition two_priorities_fields : list Spec.Field :=
  [ {| Spec.field_name := "Priority"; Spec.field_value := Some "High" |};
    {| Spec.field_name := "Priority"; Spec.field_value := Some "Low" |};
    {| Spec.field_name := "Stage"; Spec.field_value := Some "In Progress" |} ].

(** Two fields named "stage". *)
Definition two_stages : list Json :=
  [enum_field "Stage" "Done"; enum_field "Stage" "In Progress"].

Definition two_stages_fields : list Spec.Field :=
  [ {| Spec.field_name := "Stage"; Spec.field_value := Some "Done" |};
    {| Spec.field_name := "Stage"; Spec.field_value := Some "In Progress" |} ].

Definition T4_fields : list Spec.Field :=
  [ {| Spec.field_name := "Stage"; Spec.field_value := Some "To Do" |};
    {| Spec.field_name := "PRIORITY"; Spec.field_value := Some "High" |} ].

End Asana.


(** ** The setup script [webhook.py]

    [AsanaWebhookSetup] and [main]: the script looks up the first workspace
    and its first project and registers the webhook for that project.  Its
    three requests go to a service of their own; nothing is caught inside
    the methods, and [main] catches every [Exception] of its [try]. *)

Module Setup.
Import Py Server.

(** What the script can raise: the exceptions of the primitives, the two
    plain [Exception]s of the lookups, the two [ValueError]s of [main] and
    the [EOFError] of [input]. *)
Inductive Failure : Set :=
| Builtin (e : PyExc)
| NoWorkspacesFound
| NoProjectsFound
| MissingAccessToken
| MissingWebhookUrl
| EOFError.

Inductive Res (A : Type) : Type :=
| Done (a : A)
| Fail (f : Failure).
Arguments Done {A} a.
Arguments Fail {A} f.

Inductive SetupCall : Type :=
| GetWorkspaces
| GetProjects (workspace_id : Json)
| PostWebhook (body : Json).

(** The service, reached with the access token in the headers. *)
Record Api (W : Type) : Type := {
  api_get_workspaces : string -> W -> Exc Response * W;
  api_get_projects : string -> Json -> W -> Exc Response * W;
  api_post_webhook : string -> Json -> W -> Exc Response * W
}.
Arguments api_get_workspaces {W} _ _ _.
Arguments api_get_projects {W} _ _ _ _.
Arguments api_post_webhook {W} _ _ _ _.

(** The environment of [main] after [load_dotenv()]: the two variables,
    and what [input] finds on the standard input ([None] at its end). *)
Record Env : Type := {
  ASANA_ACCESS_TOKEN : option string;
  WEBHOOK_URL : option string;
  stdin_line : option string
}.

Section WithApi.
Context {W : Type} (api : Api W).

Record Run : Type := {
  api_world : W;
  requests : list SetupCall
}.

Definition S (A : Type) : Type := Run -> Res A * Run.

#[global] Instance S_ret : MRet S := fun A a r => (Done a, r).
#[global] Instance S_bind : MBind S := fun A B f m r =>
  match m r with
  | (Done a, r') => f a r'
  | (Fail e, r') => (Fail e, r')
  end.

Definition raise {A} (f : Failure) : S A := fun r => (Fail f, r).

Definition pure {A} (x : Exc A) : S A := fun r =>
  match x with
  | Ok a => (Done a, r)
  | Raise e => (Fail (Builtin e), r)
  end.

Definition call (access_token : string) (c : SetupCall) : S Response := fun r =>
  let '(x, w) :=
    match c with
    | GetWorkspaces => api_get_workspaces api access_token (api_world r)
    | GetProjects workspace_id =>
        api_get_projects api access_token workspace_id (api_world r)
    | PostWebhook body => api_post_webhook api access_token body (api_world r)
    end in
  pure x {| api_world := w; requests := requests r ++ [c] |}.

(** The state after a request of the script was answered: the world the
    service left, and the log with the request at its end. *)
Definition sent (answer : Exc Response * W) (c : SetupCall) (r : Run) : Run :=
  {| api_world := snd answer; requests := requests r ++ [c] |}.

(** What the two lookups make of an answer: the ["gid"] of the first entry
    of the list under ["data"], or the failure [f] when that list is
    empty. *)
Definition first_gid (f : Failure) (response : Response) : Res Json :=
  match json response with
  | Raise e => Fail (Builtin e)
  | Ok body =>
      match getitem body "data" with
      | Raise e => Fail (Builtin e)
      | Ok items =>
          if truthy items then
            match index0 items with
            | Raise e => Fail (Builtin e)
            | Ok item =>
                match getitem item "gid" with
                | Ok gid => Done gid
                | Raise e => Fail (Builtin e)
                end
            end
          else Fail f
      end
  end.

(** [get_workspace_id] *)
Definition get_workspace_id (access_token : string) : S Json :=
  response ← call access_token GetWorkspaces;
  body ← pure (json response);
  workspaces ← pure (getitem body "data");
  if negb (truthy workspaces) then raise NoWorkspacesFound else
  workspace ← pure (index0 workspaces);
  pure (getitem workspace "gid").

(** [get_project_id] *)
Definition get_project_id (access_token : string) (workspace_id : Json) : S Json :=
  response ← call access_token (GetProjects workspace_id);
  body ← pure (json response);
  projects ← pure (getitem body "data");
  if negb (truthy projects) then raise NoProjectsFound else
  project ← pure (index0 projects);
  pure (getitem project "gid").

(** The body that [create_webhook] posts. *)
Definition webhook_data (resource_id : Json) (target_url : string) : Json :=
  JObj [("data",
         JObj [("resource", resource_id);
               ("target", JStr target_url);
               ("filters",
                JArr [JObj [("action", JStr "changed"); ("resource_type", JStr "task")];
                      JObj [("action", JStr "added"); ("resource_type", JStr "task")]])])].

(** [create_webhook]: the branch of the failure prints [response.json()]
    before it returns [None]. *)
Definition create_webhook (access_token : string) (resource_id : Json)
    (target_url : string) : S Json :=
  response ← call access_token (PostWebhook (webhook_data resource_id target_url));
  if status_code response =? 201 then
    body ← pure (json response);
    pure (getitem body "data")
  else
    body ← pure (json response);
    mret JNull.

(** [os.getenv(name)] followed by [if not value: raise ValueError]. *)
Definition required (value : option string) (f : Failure) : S string :=
  match value with
  | Some v => if String.eqb v "" then raise f else mret v
  | None => raise f
  end.

(** [input("Press Enter to continue...")] *)
Definition input (env : Env) : S string :=
  match stdin_line env with
  | Some line => mret line
  | None => raise EOFError
  end.

(** The [try] block of [main]. *)
Definition main_body (env : Env) (access_token webhook_url : string) : S unit :=
  workspace_id ← get_workspace_id access_token;
  project_id ← get_project_id access_token workspace_id;
  input env;;
  webhook ← create_webhook access_token project_id webhook_url;
  if truthy webhook then
    gid ← pure (getitem webhook "gid");
    resource ← pure (getitem webhook "resource");
    resource_gid ← pure (getitem resource "gid");
    target ← pure (getitem webhook "target");
    mret tt
  else mret tt.

(** [try: body except Exception as e: print(...)] *)
Definition reported (body : S unit) : S unit := fun r =>
  match body r with
  | (Done _, r') => (Done tt, r')
  | (Fail _, r') => (Done tt, r')
  end.

(** [main] *)
Definition main (env : Env) : S unit :=
  access_token ← required (ASANA_ACCESS_TOKEN env) MissingAccessToken;
  webhook_url ← required (WEBHOOK_URL env) MissingWebhookUrl;
  reported (main_body env access_token webhook_url).

End WithApi.

Arguments Run W : clear implicits.
Arguments S W A : clear implicits.

End Setup.

(** ** Shapes of the data, for the statements about the rest of the code *)

Module Shape.
Import Py Server Spec.

Definition is_object (j : Json) : bool :=
  match j with
  | JObj _ => true
  | _ => false
  end.

(** The test the listing applies to one task: its custom fields are read
    and scanned, and the task is kept when the scan says so. *)
Definition kept (task : Json) : Exc bool :=
  custom_fields ← get task "custom_fields" (JArr []);
  custom_fields ← iter custom_fields;
  in_progress_scan custom_fields.

Definition is_kept (task : Json) : bool :=
  match kept task with
  | Ok b => b
  | Raise _ => false
  end.

(** A field named "stage" up to case whose value is "in progress" up to
    case. *)
Definition says_in_progress (f : Field) : bool :=
  String.eqb (str_lower (field_name f)) "stage" &&
  match field_value f with
  | Some v => String.eqb (str_lower v) "in progress"
  | None => false
  end.

(** An event that is an object with the three entries of its identity. *)
Definition has_identity (event : Json) : bool :=
  match event with
  | JObj kvs =>
      match dict_lookup "created_at" kvs, dict_lookup "resource" kvs,
            dict_lookup "action" kvs with
      | Some _, Some _, Some _ => true
      | _, _, _ => false
      end
  | _ => false
  end.

(** The month and the day of the month of the day number [n] of a year
    (0 for the first of January), as the end of [ord2ymd] finds them. *)
Definition month_day (n : Z) (leapyear : bool) : Z * Z :=
  let month := Z.shiftr (n + 50) 5 in
  let preceding :=
    Datetime.DAYS_BEFORE_MONTH month + (if (2 <? month) && leapyear then 1 else 0) in
  if n <? preceding then
    let month := month - 1 in
    let preceding :=
      preceding
      - (Datetime.DAYS_IN_MONTH month + (if (month =? 2) && leapyear then 1 else 0)) in
    (month, n - preceding + 1)
  else (month, n - preceding + 1).

(** What [month_day] has to satisfy on one day number. *)
Definition month_day_ok (leapyear : bool) (n : Z) : bool :=
  let '(month, day) := month_day n leapyear in
  (1 <=? month) && (month <=? 12) && (1 <=? day) &&
  (day <=? Datetime.DAYS_IN_MONTH month + (if (month =? 2) && leapyear then 1 else 0)) &&
  (Datetime.DAYS_BEFORE_MONTH month + (if (2 <? month) && leapyear then 1 else 0)
   + day =? n + 1).

End Shape.

(** ** More concrete inputs *)

Module Fixtures.
Import Py Server Setup.

(** The reference service, except that it refuses every update. *)
Definition refusing : Service Asana.World := {|
  svc_get_task := Asana.get_task;
  svc_get_project_tasks := Asana.get_project_tasks;
  svc_put_due_on := fun _ _ w =>
    (Ok {| status_code := 403; json := Ok (JObj [("errors", JArr [])]) |}, w);
  svc_utcnow := Asana.today
|}.

(** The reference service, except that its listing holds an entry that is
    not an object between two tasks. *)
Definition ragged_listing : list Json := [Asana.T1; JNull; Asana.T2].

Definition ragged : Service Asana.World := {|
  svc_get_task := Asana.get_task;
  svc_get_project_tasks := fun _ w => (Ok (Asana.found (JArr ragged_listing)), w);
  svc_put_due_on := Asana.put_due_on;
  svc_utcnow := Asana.today
|}.

(** A task without memberships. *)
Definition homeless : Json :=
  JObj [("gid", JStr "T9"); ("due_on", JNull);
        ("custom_fields", JArr []); ("memberships", JArr [])].

(** A listed task without the entry ["gid"]. *)
Definition nameless : Json := JObj [("name", JStr "no gid")].

(** A task with an entry that is not an object after its fields. *)
Definition T1_with_junk : Json :=
  Asana.task "T1" JNull
    [Asana.enum_field "Stage" "In Progress"; Asana.enum_field "Priority" "High";
     JNull].

Definition T4_with_junk : Json :=
  Asana.task "T4" JNull
    [Asana.enum_field "Stage" "To Do"; Asana.enum_field "PRIORITY" "High"; JInt 7].

Definition get_without_challenge : Request :=
  {| method := GET; x_hook_secret := None;
     request_json := Ok (JObj [("events", JArr [Asana.changed_T1])]) |}.

(** A delivery whose events have no identity. *)
Definition anonymous_events : list Json :=
  [JStr "changed"; JObj [("action", JStr "changed")]; JArr []].

Definition changed_T2 : Json :=
  Asana.event "2024-01-01T12:00:00.000Z" "T2" "changed".

Definition key_changed_T2 : Marker :=
  EventMarker (AStr "2024-01-01T12:00:00.000Z") (AStr "T2") (AStr "changed").

(** A directory with two workspaces and two projects; every registration
    is accepted. *)
Definition page (gids : list string) : Response :=
  {| status_code := 200;
     json := Ok (JObj [("data", JArr (map (fun g => JObj [("gid", JStr g)]) gids))]) |}.

Definition directory : Api unit := {|
  api_get_workspaces := fun _ w => (Ok (page ["W1"; "W2"]), w);
  api_get_projects := fun _ _ w => (Ok (page ["P1"; "P2"]), w);
  api_post_webhook := fun _ body w =>
    (Ok {| status_code := 201;
           json := Ok (JObj [("data",
                     JObj [("gid", JStr "H1");
                           ("resource", JObj [("gid", JStr "P1")]);
                           ("target", JStr "https://example.test/webhook")])]) |},
     w)
|}.

Definition environment : Env := {|
  ASANA_ACCESS_TOKEN := Some "secret";
  WEBHOOK_URL := Some "https://example.test/webhook";
  stdin_line := Some ""
|}.

Definition no_token : Env := {|
  ASANA_ACCESS_TOKEN := None;
  WEBHOOK_URL := Some "https://example.test/webhook";
  stdin_line := Some ""
|}.

Definition no_url : Env := {|
  ASANA_ACCESS_TOKEN := Some "secret";
  WEBHOOK_URL := Some "";
  stdin_line := Some ""
|}.

Definition start : Run unit := {| api_world := tt; requests := [] |}.

End Fixtures.

(** * Properties of the server *)

Import Py Server Spec.

(** Unfolds the plumbing of the two monads. *)
Ltac unmonad :=
  unfold mbind, mret, M_bind, M_ret, Exc_bind, Exc_ret, ebind, lift,
    try_except in *.

(** ** What a computation may do to the state *)

Section Steps.
Context {W : Type} (svc : Service W) (ok : Call -> Prop).
Implicit Types (s : State W).

Lemma steps_refl s : steps svc ok s s.
Proof.
  split; [set_solver|]. exists [].
  split; [by rewrite app_nil_r | split; [done | constructor]].
Qed.

Lemma steps_trans s1 s2 s3 : steps svc ok s1 s2 -> steps svc ok s2 s3 -> steps svc ok s1 s3.
Proof.
  intros [H12 (n12 & E12 & W12 & F12)] [H23 (n23 & E23 & W23 & F23)].
  split; [set_solver|]. exists (n12 ++ n23). split; [|split].
  - by rewrite E23, E12, app_assoc.
  - unfold replay in *. by rewrite fold_left_app, <- W12.
  - by apply Forall_app.
Qed.

Lemma issues_only_mret {A} (a : A) : issues_only svc ok (mret a : M W A).
Proof. intros s. apply steps_refl. Qed.

Lemma issues_only_lift {A} (x : Exc A) : issues_only svc ok (lift x : M W A).
Proof. intros s. apply steps_refl. Qed.

Lemma issues_only_bind {A B} (m : M W A) (f : A -> M W B) :
  issues_only svc ok m -> (forall a, issues_only svc ok (f a)) ->
  issues_only svc ok (m ≫= f).
Proof.
  intros Hm Hf s. specialize (Hm s). unfold mbind, M_bind.
  destruct (m s) as [[a|e] s']; simpl in *; [|done].
  eapply steps_trans; [exact Hm | apply Hf].
Qed.

Lemma issues_only_try_except {A} (body : M W A) (handler : PyExc -> M W A) :
  issues_only svc ok body -> (forall e, issues_only svc ok (handler e)) ->
  issues_only svc ok (try_except body handler).
Proof.
  intros Hm Hf s. specialize (Hm s). unfold try_except.
  destruct (body s) as [[a|e] s']; simpl in *; [done|].
  eapply steps_trans; [exact Hm | apply Hf].
Qed.

Lemma issues_only_for_each {A} (xs : list A) (body : A -> M W unit) :
  (forall x, issues_only svc ok (body x)) -> issues_only svc ok (for_each xs body).
Proof.
  intros Hbody. induction xs as [|x xs IH]; simpl.
  - apply issues_only_mret.
  - apply issues_only_bind; [apply Hbody | intros _; exact IH].
Qed.

Lemma issues_only_utcnow : issues_only svc ok (utcnow svc).
Proof. intros s. apply steps_refl. Qed.

Lemma issues_only_ledger_mem key : issues_only svc ok (ledger_mem key : M W bool).
Proof. intros s. unfold ledger_mem. destruct key; apply steps_refl. Qed.

Lemma issues_only_ledger_add key : issues_only svc ok (ledger_add key : M W unit).
Proof.
  intros s. unfold ledger_add. destruct key as [k|e]; [|apply steps_refl].
  split; simpl; [set_solver|]. exists [].
  split; [by rewrite app_nil_r | split; [done | constructor]].
Qed.

Lemma issues_only_request c : ok c -> issues_only svc ok (request svc c).
Proof.
  intros Hc s. unfold request. destruct (answer svc c (world s)) as [r w] eqn:E.
  split; simpl; [set_solver|]. exists [c].
  split; [done | split; [simpl; by rewrite E | by constructor]].
Qed.

End Steps.

(** Walks through a computation written with the monad's operations. *)
Ltac walk :=
  repeat first
    [ apply issues_only_mret
    | apply issues_only_lift
    | apply issues_only_utcnow
    | apply issues_only_ledger_mem
    | apply issues_only_ledger_add
    | apply issues_only_request
    | apply issues_only_bind; [|intros ?]
    | apply issues_only_try_except; [|intros ?]
    | apply issues_only_for_each; intros ?
    | match goal with
      | |- issues_only _ _ (if ?b then _ else _) => destruct b eqn:?
      | |- issues_only _ _ (match ?x with _ => _ end) => destruct x eqn:?
      | |- issues_only _ _ (let '(_, _) := ?x in _) => destruct x eqn:?
      end ].

Section Rules.
Context {W : Type} (svc : Service W) (ok : Call -> Prop).
Implicit Types (s : State W).

Lemma issues_only_fetch_task_details task_id :
  ok (GetTask task_id) -> issues_only svc ok (fetch_task_details svc task_id).
Proof. intros Hok. unfold fetch_task_details. walk. done. Qed.

Lemma issues_only_get_in_progress_tasks project_gid :
  ok (GetProjectTasks project_gid) ->
  issues_only svc ok (get_in_progress_tasks svc project_gid).
Proof. intros Hok. unfold get_in_progress_tasks. walk. done. Qed.

Lemma issues_only_handle_priority_based_due_date task_id task_data :
  (forall d, ok (PutDueOn task_id d)) ->
  issues_only svc ok (handle_priority_based_due_date svc task_id task_data).
Proof. intros Hok. unfold handle_priority_based_due_date. walk. done. Qed.

Lemma issues_only_adjust_one excluded_task_id task :
  (forall task_id, ok (GetTask task_id)) ->
  (forall task_id d, eqb task_id excluded_task_id = false -> ok (PutDueOn task_id d)) ->
  issues_only svc ok (adjust_one svc excluded_task_id task).
Proof.
  intros Hget Hput. unfold adjust_one, is_due_date_updated. walk; auto.
Qed.

Lemma issues_only_adjust_due_dates_for_in_progress excluded_task_id task_data :
  (forall task_id, ok (GetTask task_id)) ->
  (forall project_gid, ok (GetProjectTasks project_gid)) ->
  (forall task_id d, eqb task_id excluded_task_id = false -> ok (PutDueOn task_id d)) ->
  issues_only svc ok (adjust_due_dates_for_in_progress svc excluded_task_id task_data).
Proof.
  intros Hget Hlist Hput. unfold adjust_due_dates_for_in_progress. walk; auto.
Qed.

End Rules.

(** ** The dispatcher *)

Section Dispatcher.
Context {W : Type} (svc : Service W).
Implicit Types (s : State W) (request : Request) (event : Json) (k : Marker).

Lemma issues_only_dispatch event : issues_only svc any_call (dispatch svc event).
Proof. unfold dispatch. walk; done. Qed.

Lemma issues_only_process_event event :
  issues_only svc any_call (process_event svc event).
Proof. unfold process_event, process_event_body, dispatch. walk; done. Qed.

Lemma process_event_returns event s : fst (process_event svc event s) = Ok tt.
Proof.
  unfold process_event, try_except.
  by destruct (process_event_body svc event s) as [[[]|e] s'].
Qed.

Lemma process_event_state event s :
  snd (process_event svc event s) = snd (process_event_body svc event s).
Proof.
  unfold process_event, try_except.
  by destruct (process_event_body svc event s) as [[[]|e] s'].
Qed.

Lemma process_event_seen event k s :
  event_key event = Ok k -> k ∈ processed_events s ->
  process_event svc event s = (Ok tt, s).
Proof.
  intros Hkey Hin.
  unfold process_event, try_except, process_event_body, mbind, M_bind, ledger_mem.
  rewrite Hkey. by rewrite bool_decide_eq_true_2.
Qed.

Lemma process_event_malformed event e s :
  event_key event = Raise e -> process_event svc event s = (Ok tt, s).
Proof.
  intros Hkey.
  unfold process_event, try_except, process_event_body, mbind, M_bind, ledger_mem.
  by rewrite Hkey.
Qed.

Lemma process_event_fresh event k s :
  event_key event = Ok k -> k ∉ processed_events s ->
  process_event_body svc event s = dispatch svc event s.
Proof.
  intros Hkey Hin. unfold process_event_body, mbind, M_bind, ledger_mem.
  rewrite Hkey. by rewrite bool_decide_eq_false_2.
Qed.

Lemma ledger_add_then {B} k (f : unit -> M W B) s :
  (ledger_add (Ok k) ≫= f) s = f tt (mark k s).
Proof. reflexivity. Qed.

Lemma fetch_task_details_returns task_id s :
  exists task_data, fst (fetch_task_details svc task_id s) = Ok task_data.
Proof.
  unfold fetch_task_details. unmonad.
  destruct (request svc (GetTask task_id) s) as [[r|e] s']; [|by eexists].
  destruct (status_code r =? 200); [|by eexists].
  destruct (json r) as [b|e]; [|by eexists].
  destruct (get b "data" JNull); by eexists.
Qed.

Lemma fetch_task_details_state task_id s :
  snd (fetch_task_details svc task_id s) =
  {| processed_events := processed_events s;
     world := snd (answer svc (GetTask task_id) (world s));
     calls := calls s ++ [GetTask task_id] |}.
Proof.
  unfold fetch_task_details, request. unmonad.
  destruct (answer svc (GetTask task_id) (world s)) as [[r|e] w]; [|done].
  destruct (status_code r =? 200); [|done].
  destruct (json r) as [b|e]; [|done].
  by destruct (get b "data" JNull).
Qed.

Lemma dispatch_marks event k s :
  event_key event = Ok k -> steps svc any_call (mark k s) (snd (dispatch svc event s)).
Proof.
  intros Hkey. unfold dispatch. rewrite Hkey, ledger_add_then.
  match goal with |- steps _ _ _ (snd (?m _)) => assert (issues_only svc any_call m) as Hm end.
  { walk; done. }
  apply Hm.
Qed.

Lemma process_event_marks event k s :
  event_key event = Ok k -> k ∈ processed_events (snd (process_event svc event s)).
Proof.
  intros Hkey. destruct (decide (k ∈ processed_events s)) as [Hin|Hin].
  - by rewrite (process_event_seen _ _ _ Hkey Hin).
  - rewrite process_event_state, (process_event_fresh _ _ _ Hkey Hin).
    destruct (dispatch_marks _ _ s Hkey) as [Hsub _]. simpl in Hsub. set_solver.
Qed.

Lemma for_each_process_event events s :
  for_each events (process_event svc) s = (Ok tt, run_events svc events s).
Proof.
  revert s. induction events as [|event events IH]; intros s; [done|].
  cbn [for_each]. unfold mbind, M_bind.
  pose proof (process_event_returns event s) as Hret.
  destruct (process_event svc event s) as [[[]|e] s'] eqn:E; [|done].
  rewrite IH. unfold run_events. cbn [fold_left]. by rewrite E.
Qed.

Lemma run_events_grows events s :
  processed_events s ⊆ processed_events (run_events svc events s).
Proof.
  revert s. induction events as [|event events IH]; intros s; [done|].
  unfold run_events in *. cbn [fold_left]. etrans; [|apply IH].
  apply issues_only_process_event.
Qed.

Lemma run_events_marks events s :
  Forall (fun event => forall k, event_key event = Ok k ->
                                 k ∈ processed_events (run_events svc events s))
         events.
Proof.
  revert s. induction events as [|event events IH]; intros s; constructor.
  - intros k Hkey. unfold run_events. cbn [fold_left].
    apply (run_events_grows events), process_event_marks, Hkey.
  - apply (IH (snd (process_event svc event s))).
Qed.

Lemma run_events_settled events s :
  Forall (fun event => forall k, event_key event = Ok k -> k ∈ processed_events s)
         events ->
  run_events svc events s = s.
Proof.
  induction 1 as [|event events Hevent _ IH]; [done|].
  unfold run_events in *. cbn [fold_left].
  destruct (event_key event) as [k|e] eqn:Hkey.
  - by rewrite (process_event_seen _ _ _ Hkey (Hevent k eq_refl)).
  - by rewrite (process_event_malformed _ _ _ Hkey).
Qed.

(** C1.  An event whose identity is in the ledger is skipped: the state
    (ledger, service, log of the requests issued) after [process_event] is
    the state before, so nothing was fetched, evaluated or written.  Hence
    a request submitted a second time gets the answer of the first time
    and leaves the state as the first submission left it. *)
Theorem idempotent_event_handling :
  (forall event k s,
      event_key event = Ok k -> k ∈ processed_events s ->
      process_event svc event s = (Ok tt, s)) /\
  (forall request s,
      webhook svc request (snd (webhook svc request s)) = webhook svc request s).
Proof.
  split; [apply process_event_seen|].
  intros request s.
  assert (respond svc request (snd (respond svc request s)) = respond svc request s)
    as Hrespond.
  { unfold respond. destruct (method request); try done.
    unfold deliver. unmonad.
    destruct (request_events request) as [events|e]; [|done].
    rewrite !for_each_process_event. cbn [snd].
    by rewrite (run_events_settled _ _ (run_events_marks events s)). }
  unfold webhook. destruct (x_hook_secret request) as [secret|]; [|done].
  by destruct (negb (String.eqb secret "")).
Qed.

Lemma run_events_steps events s : steps svc any_call s (run_events svc events s).
Proof.
  revert s. induction events as [|event events IH]; intros s; [apply steps_refl|].
  unfold run_events in *. cbn [fold_left].
  eapply steps_trans; [apply issues_only_process_event | apply IH].
Qed.

Lemma webhook_steps request s : steps svc any_call s (snd (webhook svc request s)).
Proof.
  assert (steps svc any_call s (snd (respond svc request s))) as Hrespond.
  { unfold respond. destruct (method request); try apply steps_refl.
    unfold deliver. unmonad.
    destruct (request_events request) as [events|e]; [|apply steps_refl].
    rewrite for_each_process_event. apply run_events_steps. }
  unfold webhook. destruct (x_hook_secret request) as [secret|]; [|done].
  destruct (negb (String.eqb secret "")); [apply steps_refl | done].
Qed.

Lemma serve_steps requests s : steps svc any_call s (serve svc requests s).
Proof.
  revert s. induction requests as [|request requests IH]; intros s; [apply steps_refl|].
  unfold serve in *. cbn [fold_left].
  eapply steps_trans; [apply webhook_steps | apply IH].
Qed.

(** C10.  The marker of a fresh, well-formed event is in the ledger before
    the task is fetched: the fetch runs from the marked state and the rest
    of the processing from the state the fetch leaves.  So the event stays
    marked whatever the service answers; when the fetch yields nothing or
    the action is not "changed", the fetch is the only request issued; and
    the event is skipped ever after, whatever requests were served in
    between. *)
Theorem marker_precedes_effects event resource task_id action k s :
  getitem event "resource" = Ok resource ->
  getitem resource "gid" = Ok task_id ->
  getitem event "action" = Ok action ->
  event_key event = Ok k ->
  k ∉ processed_events s ->
  let fetched := fetch_task_details svc task_id (mark k s) in
  let s1 := snd (process_event svc event s) in
  steps svc any_call (snd fetched) s1 /\
  k ∈ processed_events s1 /\
  (forall task_data,
      fst fetched = Ok task_data ->
      truthy task_data = false \/ eqb action (JStr "changed") = false ->
      s1 = snd fetched /\
      processed_events s1 = {[k]} ∪ processed_events s /\
      calls s1 = calls s ++ [GetTask task_id]) /\
  (forall requests,
      let s2 := serve svc requests s1 in
      process_event svc event s2 = (Ok tt, s2)).
Proof.
  intros Hres Hgid Hact Hkey Hfresh fetched s1.
  assert (k ∈ processed_events s1) as Hin by apply process_event_marks, Hkey.
  assert (s1 = snd (dispatch svc event s)) as Hs1.
  { subst s1. by rewrite process_event_state, (process_event_fresh _ _ _ Hkey Hfresh). }
  assert (dispatch svc event s =
          (let '(r, s') := fetched in
           match r with
           | Ok task_data =>
               (if negb (truthy task_data) then mret tt else
                  if eqb action (JStr "changed") then
                    has_fields ← lift (contains "custom_fields" task_data);
                    (if has_fields : bool
                     then handle_priority_based_due_date svc task_id task_data
                     else mret tt);;
                    if is_high_priority_in_progress task_data
                    then adjust_due_dates_for_in_progress svc task_id task_data
                    else mret tt
                  else mret tt) s'
           | Raise e => (Raise e, s')
           end)) as Hdispatch.
  { unfold dispatch. rewrite Hkey, ledger_add_then. subst fetched.
    unfold mbind at 1 2 3, M_bind at 1 2 3, lift at 1 2.
    rewrite Hres, Hgid.
    destruct (fetch_task_details svc task_id (mark k s)) as [[task_data|e] s']; [|done].
    destruct (negb (truthy task_data)); [done|].
    unfold mbind at 1, M_bind at 1, lift at 1. by rewrite Hact. }
  split; [|split; [done|split]].
  - rewrite Hs1, Hdispatch. destruct fetched as [[task_data|e] s']; simpl; [|apply steps_refl].
    match goal with |- steps _ _ _ (snd (?m _)) => assert (issues_only svc any_call m) as Hm end.
    { walk; done. }
    apply Hm.
  - intros task_data Hfetched Hnothing.
    assert (s1 = snd fetched) as ->.
    { rewrite Hs1, Hdispatch. destruct fetched as [r s']. simpl in *. subst r.
      destruct Hnothing as [-> | ->]; [done|]. by destruct (negb (truthy task_data)). }
    split; [done|]. subst fetched. by rewrite fetch_task_details_state.
  - intros requests s2. apply (process_event_seen _ _ _ Hkey).
    destruct (serve_steps requests s1) as [Hsub _]. set_solver.
Qed.

End Dispatcher.

(** ** The endpoint *)

Section Endpoint.
Context {W : Type} (svc : Service W).
Implicit Types (s : State W) (request : Request) (event : Json).

Lemma webhook_delivery request s :
  no_challenge request -> webhook svc request s = respond svc request s.
Proof. unfold webhook. by intros [-> | ->]. Qed.

Lemma run_events_app before after s :
  run_events svc (before ++ after) s = run_events svc after (run_events svc before s).
Proof. unfold run_events. apply fold_left_app. Qed.

(** C7.  A delivery whose body decodes into a sequence of events is
    answered with the success response, and the state it leaves is the one
    reached by processing every event in turn: whatever the [try] block of
    an event does, raising included, the events after it are processed
    from the state that block left. *)
Theorem batch_resilience request events s :
  method request = POST ->
  no_challenge request ->
  request_events request = Ok events ->
  webhook svc request s = (success, run_events svc events s) /\
  status success = 200 /\
  forall before event after,
    events = before ++ event :: after ->
    run_events svc events s =
    run_events svc after
      (snd (process_event_body svc event (run_events svc before s))).
Proof.
  intros Hpost Hplain Hevents. split; [|split; [done|]].
  - rewrite (webhook_delivery _ _ Hplain). unfold respond, deliver. unmonad.
    by rewrite Hpost, Hevents, for_each_process_event.
  - intros before event after ->. rewrite run_events_app.
    unfold run_events at 1. cbn [fold_left]. by rewrite process_event_state.
Qed.

(** C8, as the code has it.  A POST whose body does not decode into a
    sequence of events is answered with status 500 and changes nothing;
    one whose body does is answered with status 200. *)
Theorem malformed_payload_response request s :
  method request = POST ->
  no_challenge request ->
  match request_events request with
  | Raise e =>
      webhook svc request s = (server_error e, s) /\ status (server_error e) = 500
  | Ok events => status (fst (webhook svc request s)) = 200
  end.
Proof.
  intros Hpost Hplain. rewrite (webhook_delivery _ _ Hplain).
  unfold respond, deliver. unmonad. rewrite Hpost.
  destruct (request_events request) as [events|e]; [|done].
  by rewrite for_each_process_event.
Qed.

(** C9, as the code has it.  A request whose challenge header is not
    empty is answered with status 200, an empty body and the header with
    the value received; the state is untouched: no event is dispatched. *)
Theorem handshake_echo request secret s :
  x_hook_secret request = Some secret ->
  secret <> "" ->
  webhook svc request s = (handshake secret, s) /\
  status (handshake secret) = 200 /\
  body (handshake secret) = EmptyBody /\
  headers (handshake secret) = [("X-Hook-Secret", secret)].
Proof.
  intros Hsecret Hne. split; [|done]. unfold webhook. rewrite Hsecret.
  by apply String.eqb_neq in Hne as ->.
Qed.

(** C6.  A task whose [due_on] is set is left alone by the priority rule:
    no request is issued, whatever the priority and the other fields are,
    and the state (ledger, service, log of the requests) is what it was. *)
Theorem existing_due_date_is_kept (task_id task_data due_on : Json) s :
  get task_data "due_on" JNull = Ok due_on ->
  truthy due_on = true ->
  handle_priority_based_due_date svc task_id task_data s = (Ok tt, s).
Proof.
  intros Hget Hset. unfold handle_priority_based_due_date. unmonad.
  by rewrite Hget, Hset.
Qed.

(** C3.  The requests a cascade issues never include an update of the
    task that triggered it, whatever the listing of the project returns:
    the world after the cascade is the world the service reaches by
    answering requests that all spare that task. *)
Theorem cascade_excludes_trigger (excluded_task_id task_data : Json) s :
  let s' := snd (adjust_due_dates_for_in_progress svc excluded_task_id task_data s) in
  exists new,
    calls s' = calls s ++ new /\
    world s' = replay svc new (world s) /\
    forall task_id due_on,
      In (PutDueOn task_id due_on) new -> eqb task_id excluded_task_id = false.
Proof.
  intros s'.
  destruct (issues_only_adjust_due_dates_for_in_progress svc
              (spares excluded_task_id) excluded_task_id task_data) with (s := s)
    as [_ (new & Hcalls & Hworld & Hok)]; try done.
  exists new. split; [done|split; [done|]].
  intros task_id due_on Hin.
  apply (proj1 (List.Forall_forall _ _) Hok _ Hin).
Qed.

End Endpoint.

(** ** The extraction of custom fields *)

Section Fields.
Implicit Types (j : Json) (f : Field) (js : list Json) (fs : list Field).

Lemma field_repr_name j f :
  field_repr j f ->
  (name ← get j "name" (JStr ""); lower name) = Ok (str_lower (field_name f)).
Proof. intros (kvs & -> & Hname & _). unmonad. simpl. by rewrite Hname. Qed.

Lemma field_repr_truthy j f : field_repr j f -> truthy j = true.
Proof. intros (kvs & -> & Hname & _). by destruct kvs. Qed.

Lemma field_repr_unset j f :
  field_repr j f -> field_value f = None ->
  exists enum_value, get j "enum_value" JNull = Ok enum_value /\ truthy enum_value = false.
Proof.
  intros (kvs & -> & _ & Hvalue) Hnone. rewrite Hnone in Hvalue. simpl.
  destruct Hvalue as [-> | ->]; by eexists.
Qed.

Lemma field_repr_set j f v :
  field_repr j f -> field_value f = Some v ->
  exists enum_value,
    get j "enum_value" JNull = Ok enum_value /\
    truthy enum_value = true /\
    getitem j "enum_value" = Ok enum_value /\
    (name ← get enum_value "name" (JStr ""); lower name) = Ok (str_lower v).
Proof.
  intros (kvs & -> & _ & Hvalue) Hsome. rewrite Hsome in Hvalue.
  destruct Hvalue as (ekvs & Henum & Hname). exists (JObj ekvs). simpl.
  rewrite Henum. repeat split; [by destruct ekvs|].
  unmonad. by rewrite Hname.
Qed.

(** What the tests and the reading of a field that was found return. *)
Lemma found_repr_value (jo : option Json) (fo : option Field) :
  found_repr jo fo ->
  match value_of fo with
  | None => field_unset jo = Ok true
  | Some v => field_unset jo = Ok false /\ enum_name jo = Ok v
  end.
Proof.
  destruct jo as [j|], fo as [f|]; simpl; try done. intros Hrepr.
  rewrite (field_repr_truthy _ _ Hrepr).
  destruct (field_value f) as [v|] eqn:Hvalue; simpl.
  - destruct (field_repr_set _ _ _ Hrepr Hvalue) as (ev & Hget & Htruthy & Hitem & Hname).
    unmonad. rewrite Hget, Htruthy, Hitem. by split.
  - destruct (field_repr_unset _ _ Hrepr Hvalue) as (ev & Hget & Htruthy).
    unmonad. by rewrite Hget, Htruthy.
Qed.

(** The loop of the priority rule stops at the first field of that name. *)
Lemma find_priority_field_first js fs :
  Forall2 field_repr js fs ->
  exists jo fo,
    find_priority_field js = Ok jo /\ found_repr jo fo /\
    value_of fo = extract_field "priority" fs.
Proof.
  induction 1 as [|j f js fs Hrepr _ IH].
  - by exists None, None.
  - cbn [find_priority_field extract_field].
    pose proof (field_repr_name _ _ Hrepr) as Hname. unmonad.
    destruct (get j "name" (JStr "")) as [name|]; [|done].
    rewrite Hname.
    destruct (String.eqb (str_lower (field_name f)) "priority"); [|exact IH].
    by exists (Some j), (Some f).
Qed.

(** The loop of the cascade trigger runs to the end. *)
Lemma scan_stage_priority_last js fs (s0 p0 : option Json) (sf0 pf0 : option Field) :
  Forall2 field_repr js fs -> found_repr s0 sf0 -> found_repr p0 pf0 ->
  exists s1 p1,
    scan_stage_priority js s0 p0 = Ok (s1, p1) /\
    found_repr s1 (last_field "stage" fs sf0) /\
    found_repr p1 (last_field "priority" fs pf0).
Proof.
  intros Hall. revert s0 p0 sf0 pf0.
  induction Hall as [|j f js fs Hrepr _ IH]; intros s0 p0 sf0 pf0 Hs Hp.
  - by exists s0, p0.
  - cbn [scan_stage_priority last_field].
    pose proof (field_repr_name _ _ Hrepr) as Hname. unmonad.
    destruct (get j "name" (JStr "")) as [name|]; [|done].
    rewrite Hname. apply IH.
    + by destruct (String.eqb (str_lower (field_name f)) "stage").
    + by destruct (String.eqb (str_lower (field_name f)) "priority").
Qed.

Lemma last_field_none target fs init :
  count_named target fs = O -> last_field target fs init = init.
Proof.
  revert init. induction fs as [|f fs IH]; intros init; [done|].
  cbn [count_named last_field].
  destruct (String.eqb (str_lower (field_name f)) target); [done|]. apply IH.
Qed.

Lemma extract_field_none target fs :
  count_named target fs = O -> extract_field target fs = None.
Proof.
  induction fs as [|f fs IH]; [done|]. cbn [count_named extract_field].
  by destruct (String.eqb (str_lower (field_name f)) target).
Qed.

(** With at most one field of the name, the last one is the first one. *)
Lemma last_field_unique target fs :
  (count_named target fs <= 1)%nat ->
  value_of (last_field target fs None) = extract_field target fs.
Proof.
  induction fs as [|f fs IH]; [done|]. cbn [count_named last_field extract_field].
  destruct (String.eqb (str_lower (field_name f)) target); [|exact IH].
  intros Hle. rewrite last_field_none by lia. done.
Qed.

Lemma in_progress_scan_none js fs :
  Forall2 field_repr js fs -> count_named "stage" fs = O ->
  in_progress_scan js = Ok false.
Proof.
  induction 1 as [|j f js fs Hrepr _ IH]; [done|].
  cbn [in_progress_scan count_named].
  pose proof (field_repr_name _ _ Hrepr) as Hname. unmonad.
  destruct (get j "name" (JStr "")) as [name|]; [|done].
  rewrite Hname.
  by destruct (String.eqb (str_lower (field_name f)) "stage").
Qed.

Lemma value_is (o : option string) (c : string) :
  bool_decide (o = Some c) =
  match o with Some v => String.eqb v c | None => false end.
Proof.
  destruct o as [v|]; [|done].
  destruct (String.eqb_spec v c) as [->|Hne].
  - by rewrite bool_decide_eq_true_2.
  - rewrite bool_decide_eq_false_2; [done|congruence].
Qed.

Lemma in_progress_scan_unique js fs :
  Forall2 field_repr js fs -> (count_named "stage" fs <= 1)%nat ->
  in_progress_scan js =
  Ok (bool_decide (extract_field "stage" fs = Some "in progress")).
Proof.
  induction 1 as [|j f js fs Hrepr Hall IH]; [done|].
  cbn [in_progress_scan count_named extract_field].
  pose proof (field_repr_name _ _ Hrepr) as Hname. unmonad.
  destruct (get j "name" (JStr "")) as [name|]; [|done].
  rewrite Hname.
  destruct (String.eqb (str_lower (field_name f)) "stage"); [|exact IH].
  intros Hle. rewrite (in_progress_scan_none _ _ Hall) by lia.
  rewrite value_is.
  destruct (field_value f) as [v|] eqn:Hvalue; simpl.
  - destruct (field_repr_set _ _ _ Hrepr Hvalue) as (ev & -> & -> & -> & Hvname).
    unmonad. destruct (get ev "name" (JStr "")) as [vname|]; [|done].
    rewrite Hvname. by destruct (String.eqb (str_lower v) "in progress").
  - by destruct (field_repr_unset _ _ Hrepr Hvalue) as (ev & -> & ->).
Qed.

(** The cascade trigger reads the last stage field and the last priority
    field. *)
Lemma is_high_priority_in_progress_last task_data js fs :
  get task_data "custom_fields" (JArr []) = Ok (JArr js) ->
  Forall2 field_repr js fs ->
  is_high_priority_in_progress task_data =
  bool_decide (value_of (last_field "stage" fs None) = Some "in progress") &&
  bool_decide (value_of (last_field "priority" fs None) = Some "high").
Proof.
  intros Hfields Hall. unfold is_high_priority_in_progress. unmonad.
  rewrite Hfields. cbn [iter].
  destruct (scan_stage_priority_last js fs None None None None Hall I I)
    as (s1 & p1 & -> & Hs & Hp).
  apply found_repr_value in Hs, Hp. rewrite !value_is.
  destruct (value_of (last_field "stage" fs None)) as [stage|].
  - destruct Hs as [-> ->].
    destruct (value_of (last_field "priority" fs None)) as [priority|].
    + by destruct Hp as [-> ->].
    + rewrite Hp. by rewrite andb_false_r.
  - by rewrite Hs.
Qed.

(** C5, as the code has it.  Every site compares the field name up to
    case and reads the lower-cased enum value.  The priority rule takes the
    first field named "priority".  The cascade trigger and the in-progress
    filter agree with the first-match extractor whenever at most one field
    carries the name they look for. *)
Theorem field_extraction js fs :
  Forall2 field_repr js fs ->
  (exists jo,
      find_priority_field js = Ok jo /\
      match extract_field "priority" fs with
      | None => field_unset jo = Ok true
      | Some v => field_unset jo = Ok false /\ enum_name jo = Ok v
      end) /\
  ((count_named "stage" fs <= 1)%nat ->
   (count_named "priority" fs <= 1)%nat ->
   forall task_data,
     get task_data "custom_fields" (JArr []) = Ok (JArr js) ->
     is_high_priority_in_progress task_data =
     bool_decide (extract_field "stage" fs = Some "in progress") &&
     bool_decide (extract_field "priority" fs = Some "high")) /\
  ((count_named "stage" fs <= 1)%nat ->
   in_progress_scan js =
   Ok (bool_decide (extract_field "stage" fs = Some "in progress"))).
Proof.
  intros Hall. split; [|split].
  - destruct (find_priority_field_first js fs Hall) as (jo & fo & Hfind & Hrepr & Hvalue).
    exists jo. split; [done|]. rewrite <- Hvalue. by apply found_repr_value.
  - intros Hstage Hpriority task_data Hfields.
    rewrite (is_high_priority_in_progress_last _ _ _ Hfields Hall).
    by rewrite !last_field_unique.
  - by apply in_progress_scan_unique.
Qed.

End Fields.

(** ** The two due-date rules *)

Section DueDates.
Context {W : Type} (svc : Service W).
Implicit Types (s : State W) (task_id task_data task : Json).

Lemma handle_priority_based_due_date_value task_id task_data due_on js fs s :
  get task_data "due_on" JNull = Ok due_on ->
  truthy due_on = false ->
  get task_data "custom_fields" (JArr []) = Ok (JArr js) ->
  Forall2 field_repr js fs ->
  handle_priority_based_due_date svc task_id task_data s =
  match extract_field "priority" fs with
  | None => (Ok tt, s)
  | Some priority_value =>
      match priority_to_days priority_value with
      | None => (Ok tt, s)
      | Some days_to_add =>
          match Datetime.add_days (svc_utcnow svc (world s)) days_to_add with
          | Ok day =>
              (Ok tt, snd (request svc (PutDueOn task_id (Datetime.strftime day)) s))
          | Raise _ => (Ok tt, s)
          end
      end
  end.
Proof.
  intros Hdue Hnone Hfields Hall.
  destruct (find_priority_field_first js fs Hall) as (jo & fo & Hfind & Hrepr & Hvalue).
  apply found_repr_value in Hrepr. rewrite Hvalue in Hrepr.
  unfold handle_priority_based_due_date, utcnow. unmonad.
  rewrite Hdue, Hnone, Hfields. cbn [iter]. rewrite Hfind.
  destruct (extract_field "priority" fs) as [priority_value|].
  - destruct Hrepr as [-> ->].
    destruct (priority_to_days priority_value) as [days_to_add|]; [|done].
    destruct (Datetime.add_days (svc_utcnow svc (world s)) days_to_add); [|done].
    by destruct (request svc _ s) as [[r|e] s'].
  - by rewrite Hrepr.
Qed.

Lemma add_days_in_range today days :
  1 <= today + days <= Datetime.MAXORDINAL ->
  Datetime.add_days today days = Ok (today + days).
Proof.
  intros [Hlo Hhi]. unfold Datetime.add_days.
  apply Z.leb_le in Hlo, Hhi. by rewrite Hlo, Hhi.
Qed.

(** C4.  For a task without a due date whose custom fields are well
    formed, the priority rule issues exactly one request, the update of the
    task to the current day plus 2 days for the priority "high", plus 7 for
    "medium", plus 14 for "low", written as a date; it issues nothing when
    the priority is unset, is any other value, or no field has the name. *)
Theorem priority_default_assignment task_id task_data due_on js fs s :
  get task_data "due_on" JNull = Ok due_on ->
  truthy due_on = false ->
  get task_data "custom_fields" (JArr []) = Ok (JArr js) ->
  Forall2 field_repr js fs ->
  1 <= svc_utcnow svc (world s) ->
  svc_utcnow svc (world s) + 14 <= Datetime.MAXORDINAL ->
  let today := svc_utcnow svc (world s) in
  let assigns days :=
    handle_priority_based_due_date svc task_id task_data s =
    (Ok tt,
     snd (request svc (PutDueOn task_id (Datetime.strftime (today + days))) s)) in
  let untouched :=
    handle_priority_based_due_date svc task_id task_data s = (Ok tt, s) in
  match extract_field "priority" fs with
  | None => untouched
  | Some priority_value =>
      (priority_value = "high" -> assigns 2) /\
      (priority_value = "medium" -> assigns 7) /\
      (priority_value = "low" -> assigns 14) /\
      (priority_value <> "high" -> priority_value <> "medium" ->
       priority_value <> "low" -> untouched)
  end.
Proof.
  intros Hdue Hnone Hfields Hall Hlo Hhi today assigns untouched.
  subst assigns untouched. cbn beta.
  rewrite (handle_priority_based_due_date_value _ _ _ _ _ _ Hdue Hnone Hfields Hall).
  destruct (extract_field "priority" fs) as [priority_value|]; [|done].
  repeat split.
  - intros ->. cbn [priority_to_days String.eqb]. simpl. by rewrite add_days_in_range by lia.
  - intros ->. simpl. by rewrite add_days_in_range by lia.
  - intros ->. simpl. by rewrite add_days_in_range by lia.
  - intros Hh Hm Hl. unfold priority_to_days.
    apply String.eqb_neq in Hh, Hm, Hl. by rewrite Hh, Hm, Hl.
Qed.

Lemma fetch_task_details_ledger task_id s task_details s' :
  fetch_task_details svc task_id s = (Ok task_details, s') ->
  processed_events s' = processed_events s /\
  calls s' = calls s ++ [GetTask task_id].
Proof.
  intros Hfetch. pose proof (fetch_task_details_state svc task_id s) as Hstate.
  rewrite Hfetch in Hstate. simpl in Hstate. by subst s'.
Qed.

(** The test of the cascade before it writes. *)
Lemma adjust_one_guard excluded_task_id task task_id t s details sf current c :
  getitem task "gid" = Ok task_id ->
  eqb task_id excluded_task_id = false ->
  hashable task_id = Ok t ->
  fetch_task_details svc task_id s = (Ok details, sf) ->
  truthy details = true ->
  get details "due_on" JNull = Ok current ->
  truthy current = true ->
  hashable current = Ok c ->
  UpdateMarker t c ∈ processed_events s ->
  adjust_one svc excluded_task_id task s = (Ok tt, sf).
Proof.
  intros Hgid Hother Ht Hfetch Hdetails Hdue Hcurrent Hc Hin.
  destruct (fetch_task_details_ledger _ _ _ _ Hfetch) as [Hledger _].
  unfold adjust_one, is_due_date_updated, ledger_mem, update_key. unmonad.
  rewrite Hgid, Hother, Hfetch, Hdetails. cbn [negb].
  rewrite Hdue, Hcurrent. cbn [negb]. rewrite Ht, Hc, Hledger.
  by rewrite bool_decide_eq_true_2.
Qed.

(** C2, as the code has it.  Before it writes, the cascade looks up the
    pair of the task and the due date it has just read, and skips the task
    when the pair is in the ledger.  A successful shift records the pair of
    the task and the new date; so a later pass that reads that new date
    does not shift the task again. *)
Theorem cascade_non_reentry excluded_task_id task task_id t :
  getitem task "gid" = Ok task_id ->
  eqb task_id excluded_task_id = false ->
  hashable task_id = Ok t ->
  (forall s details sf current c,
      fetch_task_details svc task_id s = (Ok details, sf) ->
      truthy details = true ->
      get details "due_on" JNull = Ok current ->
      truthy current = true ->
      hashable current = Ok c ->
      UpdateMarker t c ∈ processed_events s ->
      adjust_one svc excluded_task_id task s = (Ok tt, sf)) /\
  (forall s details sf current c new r w,
      fetch_task_details svc task_id s = (Ok details, sf) ->
      truthy details = true ->
      get details "due_on" JNull = Ok current ->
      truthy current = true ->
      hashable current = Ok c ->
      UpdateMarker t c ∉ processed_events s ->
      Datetime.shift_two_days current = Ok new ->
      answer svc (PutDueOn task_id new) (world sf) = (Ok r, w) ->
      status_code r = 200 ->
      let s1 :=
        {| processed_events := {[UpdateMarker t (AStr new)]} ∪ processed_events s;
           world := w;
           calls := calls s ++ [GetTask task_id; PutDueOn task_id new] |} in
      adjust_one svc excluded_task_id task s = (Ok tt, s1) /\
      forall s2 details2 sf2,
        processed_events s1 ⊆ processed_events s2 ->
        fetch_task_details svc task_id s2 = (Ok details2, sf2) ->
        get details2 "due_on" JNull = Ok (JStr new) ->
        adjust_one svc excluded_task_id task s2 = (Ok tt, sf2)).
Proof.
  intros Hgid Hother Ht. split.
  - intros s details sf current c. by apply adjust_one_guard.
  - intros s details sf current c new r w
      Hfetch Hdetails Hdue Hcurrent Hc Hfresh Hshift Hput Hstatus s1.
    split.
    + destruct (fetch_task_details_ledger _ _ _ _ Hfetch) as [Hledger Hcalls].
      unfold adjust_one, is_due_date_updated, ledger_mem, ledger_add, update_key,
        request.
      unmonad.
      rewrite Hgid, Hother, Hfetch, Hdetails. cbn [negb].
      rewrite Hdue, Hcurrent. cbn [negb]. rewrite Ht, Hc, Hledger.
      rewrite bool_decide_eq_false_2 by done.
      rewrite Hshift, Hput, Hstatus. cbn [Z.eqb Pos.eqb hashable].
      subst s1. simpl. rewrite Hledger, Hcalls, <- app_assoc. done.
    + intros s2 details2 sf2 Hsub Hfetch2 Hdue2.
      destruct (truthy details2) eqn:Hdetails2;
        [destruct (truthy (JStr new)) eqn:Hnew|].
      * eapply adjust_one_guard; eauto. subst s1. simpl in Hsub. set_solver.
      * unfold adjust_one. unmonad.
        rewrite Hgid, Hother, Hfetch2, Hdetails2. cbn [negb].
        by rewrite Hdue2, Hnew.
      * unfold adjust_one. unmonad.
        by rewrite Hgid, Hother, Hfetch2, Hdetails2.
Qed.

End DueDates.

(** ** The code on concrete inputs, with the reference service *)

Section Concrete.
Import Asana.

Lemma enum_field_repr name value :
  field_repr (enum_field name value)
    {| field_name := name; field_value := Some value |}.
Proof.
  eexists. split; [reflexivity|]. split; [reflexivity|].
  eexists. split; reflexivity.
Defined.

Lemma unset_field_repr name :
  field_repr (unset_field name) {| field_name := name; field_value := None |}.
Proof.
  eexists. split; [reflexivity|]. split; [reflexivity|]. by right.
Defined.

Lemma two_priorities_repr : Forall2 field_repr two_priorities two_priorities_fields.
Proof. repeat constructor; apply enum_field_repr. Defined.

Lemma two_stages_repr : Forall2 field_repr two_stages two_stages_fields.
Proof. repeat constructor; apply enum_field_repr. Defined.

Lemma T4_fields_repr :
  Forall2 field_repr
    [enum_field "Stage" "To Do"; enum_field "PRIORITY" "High"] T4_fields.
Proof. repeat constructor; apply enum_field_repr. Defined.

(** The scenario of the specification: the "changed" event of T1 moves T2
    and T3 by two days and leaves T1; delivered again, it does nothing. *)
Example end_to_end :
  let first := webhook service (delivery [changed_T1]) (initial scenario) in
  let second := webhook service (delivery [changed_T1]) (snd first) in
  status (fst first) = 200 /\
  calls (snd first) =
    [GetTask (JStr "T1"); GetProjectTasks (JStr "P");
     GetTask (JStr "T2"); PutDueOn (JStr "T2") "2024-01-07";
     GetTask (JStr "T3"); PutDueOn (JStr "T3") "2024-01-08"] /\
  due_on_of (JStr "T1") (world (snd first)) = Some (JStr "2024-01-10") /\
  due_on_of (JStr "T2") (world (snd first)) = Some (JStr "2024-01-07") /\
  due_on_of (JStr "T3") (world (snd first)) = Some (JStr "2024-01-08") /\
  second = first.
Proof. vm_compute. repeat split. Qed.

(** A "changed" event of a task without a due date and of high priority
    sets the due date two days ahead; the cascade is not triggered. *)
Example priority_default_end_to_end :
  let answered := webhook service (delivery [changed_T4]) (initial backlog) in
  status (fst answered) = 200 /\
  calls (snd answered) =
    [GetTask (JStr "T4"); PutDueOn (JStr "T4") "2024-01-03"] /\
  due_on_of (JStr "T4") (world (snd answered)) = Some (JStr "2024-01-03").
Proof. vm_compute. repeat split. Qed.

(** *** The reference service keeps the due date of a task that no
    request updates *)

Lemma eqb_str_l (name : string) (j : Json) : eqb (JStr name) j = true -> j = JStr name.
Proof. destruct j; simpl; try done. intros H. by apply String.eqb_eq in H as ->. Qed.

Lemma eqb_str_r (j : Json) (name : string) : eqb j (JStr name) = true -> j = JStr name.
Proof. destruct j; simpl; try done. intros H. by apply String.eqb_eq in H as ->. Qed.

Lemma dict_set_other k k' v kvs :
  String.eqb k' k = false ->
  dict_lookup k' (dict_set k v kvs) = dict_lookup k' kvs.
Proof.
  intros Hne. induction kvs as [|[k0 v0] kvs IH]; simpl.
  - by rewrite Hne.
  - destruct (String.eqb_spec k k0) as [<-|Hk]; simpl.
    + by rewrite Hne.
    + by rewrite IH.
Qed.

Lemma gid_is_set_due_on task_id due_on task :
  gid_is task_id (set_due_on due_on task) = gid_is task_id task.
Proof.
  destruct task; try done. unfold gid_is, set_due_on, get.
  by rewrite dict_set_other.
Qed.

Lemma gid_is_exclusive (name : string) (task_id task : Json) :
  eqb task_id (JStr name) = false ->
  gid_is (JStr name) task = true -> gid_is task_id task = false.
Proof.
  unfold gid_is. intros Hne. destruct (get task "gid" JNull) as [gid|]; [|done].
  intros Hgid. apply eqb_str_r in Hgid as ->.
  destruct (eqb (JStr name) task_id) eqn:Heq; [|done].
  apply eqb_str_l in Heq as ->. simpl in Hne. by rewrite String.eqb_refl in Hne.
Qed.

Lemma find_after_update (name : string) (task_id : Json) due_on ts :
  eqb task_id (JStr name) = false ->
  find (gid_is (JStr name))
    (map (fun t => if gid_is task_id t then set_due_on due_on t else t) ts) =
  find (gid_is (JStr name)) ts.
Proof.
  intros Hne. induction ts as [|t ts IH]; [done|]. simpl.
  destruct (gid_is task_id t) eqn:Hid.
  - rewrite gid_is_set_due_on.
    destruct (gid_is (JStr name) t) eqn:Hname; [|exact IH].
    by rewrite (gid_is_exclusive _ _ _ Hne Hname) in Hid.
  - by rewrite IH.
Qed.

Lemma answer_spares (name : string) (c : Call) (w : World) :
  spares (JStr name) c ->
  due_on_of (JStr name) (snd (answer service c w)) = due_on_of (JStr name) w.
Proof.
  destruct c as [task_id|project_gid|task_id due_on]; simpl.
  - intros _. unfold get_task. by destruct (find _ _).
  - done.
  - intros Hne. unfold put_due_on. destruct (find (gid_is task_id) (tasks w)); [|done].
    unfold due_on_of. simpl. by rewrite find_after_update.
Qed.

Lemma replay_spares (name : string) (cs : list Call) (w : World) :
  Forall (spares (JStr name)) cs ->
  due_on_of (JStr name) (replay service cs w) = due_on_of (JStr name) w.
Proof.
  intros Hall. revert w. induction Hall as [|c cs Hc _ IH]; intros w; [done|].
  unfold replay in *. cbn [fold_left]. by rewrite IH, answer_spares.
Qed.

(** *** Instances of the theorems *)

Lemma cascade_excludes_trigger_witness :
  let s := initial scenario in
  let s' := snd (adjust_due_dates_for_in_progress service (JStr "T1") T1 s) in
  match fst (get_in_progress_tasks service (JStr "P") s) with
  | Ok listed => In T1 listed
  | Raise _ => False
  end /\
  (forall due_on, ~ In (PutDueOn (JStr "T1") due_on) (calls s')) /\
  due_on_of (JStr "T1") (world s') = due_on_of (JStr "T1") (world s).
Proof.
  intros s s'.
  destruct (cascade_excludes_trigger service (JStr "T1") T1 s)
    as (new & Hcalls & Hworld & Hput).
  fold s' in Hcalls, Hworld. split; [|split].
  - vm_compute. by left.
  - intros due_on Hin. rewrite Hcalls in Hin. cbn [calls s initial app] in Hin.
    apply Hput in Hin. discriminate Hin.
  - rewrite Hworld. apply replay_spares.
    apply List.Forall_forall. intros [task_id| |task_id due_on] Hin; try exact I.
    exact (Hput _ _ Hin).
Defined.

Lemma idempotent_event_handling_witness :
  let s := mark key_changed_T1 (initial scenario) in
  event_key changed_T1 = Ok key_changed_T1 /\
  key_changed_T1 ∈ processed_events s /\
  process_event service changed_T1 s = (Ok tt, s) /\
  webhook service (delivery [changed_T1])
    (snd (webhook service (delivery [changed_T1]) (initial scenario))) =
  webhook service (delivery [changed_T1]) (initial scenario).
Proof.
  intros s.
  assert (key_changed_T1 ∈ processed_events s) as Hin.
  { subst s. unfold mark. cbn [processed_events].
    apply elem_of_union_l, elem_of_singleton. reflexivity. }
  split; [reflexivity|]. split; [exact Hin|]. split.
  - apply (proj1 (idempotent_event_handling service) changed_T1 key_changed_T1 s);
      [reflexivity | exact Hin].
  - apply (proj2 (idempotent_event_handling service)).
Defined.

Lemma marker_precedes_effects_witness :
  let s := initial scenario in
  let s1 := snd (process_event service added_T2 s) in
  event_key added_T2 = Ok key_added_T2 /\
  (key_added_T2 ∉ processed_events s) /\
  (key_added_T2 ∈ processed_events s1) /\
  calls s1 = [GetTask (JStr "T2")] /\
  let s2 := serve service [delivery [changed_T1]] s1 in
  process_event service added_T2 s2 = (Ok tt, s2).
Proof.
  intros s s1.
  assert (key_added_T2 ∉ processed_events s) as Hfresh by apply not_elem_of_empty.
  destruct (marker_precedes_effects service added_T2
              (JObj [("gid", JStr "T2"); ("resource_type", JStr "task")])
              (JStr "T2") (JStr "added") key_added_T2 s
              eq_refl eq_refl eq_refl eq_refl Hfresh)
    as (_ & Hin & Hquiet & Hlater).
  split; [reflexivity|]. split; [exact Hfresh|]. split; [exact Hin|]. split.
  - destruct (Hquiet T2 eq_refl (or_intror eq_refl)) as (_ & _ & Hcalls).
    exact Hcalls.
  - apply (Hlater [delivery [changed_T1]]).
Defined.

Lemma batch_resilience_witness :
  let request := delivery [JInt 5; changed_T1] in
  let s := initial scenario in
  method request = POST /\
  no_challenge request /\
  request_events request = Ok [JInt 5; changed_T1] /\
  fst (process_event_body service (JInt 5) s) = Raise TypeError /\
  webhook service request s =
  (success, run_events service [changed_T1]
              (snd (process_event_body service (JInt 5) s))).
Proof.
  intros request s.
  destruct (batch_resilience service request [JInt 5; changed_T1] s
              eq_refl (or_introl eq_refl) eq_refl) as (Hanswer & _ & Hrest).
  split; [reflexivity|]. split; [by left|]. split; [reflexivity|].
  split; [reflexivity|].
  rewrite Hanswer, (Hrest [] (JInt 5) [changed_T1] eq_refl). reflexivity.
Defined.

Lemma malformed_payload_response_witness :
  method undecodable = POST /\
  no_challenge undecodable /\
  request_events undecodable = Raise BadRequest /\
  webhook service undecodable (initial scenario) =
  (server_error BadRequest, initial scenario).
Proof.
  split; [reflexivity|]. split; [by left|]. split; [reflexivity|].
  apply (malformed_payload_response service undecodable (initial scenario)
           eq_refl (or_introl eq_refl)).
Defined.

Lemma handshake_echo_witness :
  x_hook_secret challenge = Some "abc123" /\
  webhook service challenge (initial scenario) =
  (handshake "abc123", initial scenario).
Proof.
  split; [reflexivity|].
  apply (handshake_echo service challenge "abc123" (initial scenario) eq_refl).
  discriminate.
Defined.

Lemma existing_due_date_is_kept_witness :
  get T1 "due_on" JNull = Ok (JStr "2024-01-10") /\
  truthy (JStr "2024-01-10") = true /\
  handle_priority_based_due_date service (JStr "T1") T1 (initial scenario) =
  (Ok tt, initial scenario).
Proof.
  split; [reflexivity|]. split; [reflexivity|].
  apply (existing_due_date_is_kept service (JStr "T1") T1 (JStr "2024-01-10"));
    reflexivity.
Defined.

Lemma priority_default_assignment_witness :
  let s := initial scenario in
  get T4 "due_on" JNull = Ok JNull /\
  truthy JNull = false /\
  extract_field "priority" T4_fields = Some "high" /\
  1 <= svc_utcnow service (world s) /\
  svc_utcnow service (world s) + 14 <= Datetime.MAXORDINAL /\
  handle_priority_based_due_date service (JStr "T4") T4 s =
  (Ok tt, snd (request service (PutDueOn (JStr "T4") "2024-01-03") s)).
Proof.
  intros s.
  assert (1 <= svc_utcnow service (world s)) as Hlo by (vm_compute; discriminate).
  assert (svc_utcnow service (world s) + 14 <= Datetime.MAXORDINAL) as Hhi
    by (vm_compute; discriminate).
  split; [reflexivity|]. split; [reflexivity|]. split; [reflexivity|].
  split; [exact Hlo|]. split; [exact Hhi|].
  apply (proj1 (priority_default_assignment service (JStr "T4") T4 JNull _ T4_fields s
                  eq_refl eq_refl eq_refl T4_fields_repr Hlo Hhi) eq_refl).
Defined.

Lemma cascade_non_reentry_witness :
  let s := initial scenario in
  let s1 := snd (adjust_one service (JStr "T1") T2 s) in
  getitem T2 "gid" = Ok (JStr "T2") /\
  eqb (JStr "T2") (JStr "T1") = false /\
  hashable (JStr "T2") = Ok (AStr "T2") /\
  calls s1 = [GetTask (JStr "T2"); PutDueOn (JStr "T2") "2024-01-07"] /\
  (UpdateMarker (AStr "T2") (AStr "2024-01-07") ∈ processed_events s1) /\
  calls (snd (adjust_one service (JStr "T1") T2 s1)) =
  [GetTask (JStr "T2"); PutDueOn (JStr "T2") "2024-01-07"; GetTask (JStr "T2")].
Proof.
  intros s s1.
  destruct (cascade_non_reentry service (JStr "T1") T2 (JStr "T2") (AStr "T2")
              eq_refl eq_refl eq_refl) as [_ Hrecord].
  edestruct (Hrecord s) as [Hfirst Hlater].
  - vm_compute. reflexivity.
  - reflexivity.
  - reflexivity.
  - reflexivity.
  - reflexivity.
  - apply not_elem_of_empty.
  - reflexivity.
  - vm_compute. reflexivity.
  - reflexivity.
  - split; [reflexivity|]. split; [reflexivity|]. split; [reflexivity|].
    subst s1. rewrite Hfirst. cbn [snd calls processed_events].
    split; [reflexivity|]. split.
    + apply elem_of_union_l, elem_of_singleton. reflexivity.
    + erewrite Hlater; [| reflexivity | vm_compute; reflexivity | reflexivity].
      reflexivity.
Defined.

Lemma field_extraction_witness :
  Forall2 field_repr two_priorities two_priorities_fields /\
  extract_field "priority" two_priorities_fields = Some "high" /\
  exists jo,
    find_priority_field two_priorities = Ok jo /\
    field_unset jo = Ok false /\ enum_name jo = Ok "high".
Proof.
  split; [exact two_priorities_repr|]. split; [reflexivity|].
  exact (proj1 (field_extraction two_priorities two_priorities_fields
                  two_priorities_repr)).
Defined.

(** *** Where the code departs from the claims *)

(** C2 as stated fails: T2 was moved by the cascade from 2024-01-05 to
    2024-01-07, and a second pass that reads 2024-01-05 on T2 again (the
    date was set back) moves it again: the ledger holds the new date, not
    the one the shift started from. *)
Lemma cascade_reenters_on_prior_date :
  let first :=
    snd (adjust_due_dates_for_in_progress service (JStr "T1") T1 (initial scenario)) in
  let again :=
    {| processed_events := processed_events first;
       world := scenario; calls := [] |} in
  due_on_of (JStr "T2") scenario = Some (JStr "2024-01-05") /\
  calls first =
    [GetProjectTasks (JStr "P");
     GetTask (JStr "T2"); PutDueOn (JStr "T2") "2024-01-07";
     GetTask (JStr "T3"); PutDueOn (JStr "T3") "2024-01-08"] /\
  due_on_of (JStr "T2") (world again) = Some (JStr "2024-01-05") /\
  In (PutDueOn (JStr "T2") "2024-01-07")
     (calls (snd (adjust_due_dates_for_in_progress service (JStr "T1") T1 again))).
Proof. vm_compute. repeat split. right. right. by left. Qed.

(** C5 as stated fails at two of the three sites.  With two fields named
    "priority" the first one says "high", yet the cascade trigger reads the
    last one; with two fields named "stage" the first one says "done", yet
    the in-progress filter accepts the task for the second. *)
Lemma first_match_fails_in_trigger_and_filter :
  (Forall2 field_repr two_priorities two_priorities_fields /\
   extract_field "stage" two_priorities_fields = Some "in progress" /\
   extract_field "priority" two_priorities_fields = Some "high" /\
   is_high_priority_in_progress (JObj [("custom_fields", JArr two_priorities)])
   = false) /\
  (Forall2 field_repr two_stages two_stages_fields /\
   extract_field "stage" two_stages_fields = Some "done" /\
   in_progress_scan two_stages = Ok true).
Proof.
  split.
  - split; [exact two_priorities_repr|]. by vm_compute.
  - split; [exact two_stages_repr|]. by vm_compute.
Qed.

(** C8 as stated fails: a POST whose body cannot be decoded is answered
    with status 500, which is not a client-error status. *)
Lemma undecodable_body_is_server_error :
  let response := fst (webhook service undecodable (initial scenario)) in
  method undecodable = POST /\
  request_events undecodable = Raise BadRequest /\
  status response = 500 /\
  ~ (400 <= status response < 500).
Proof.
  intros response. split; [reflexivity|]. split; [reflexivity|].
  split; [reflexivity|]. intros [_ H]. vm_compute in H. discriminate H.
Qed.

(** C9 as stated fails: a request that carries the challenge header with
    an empty value is not answered with the echo; its body is processed as
    a delivery. *)
Lemma empty_challenge_is_not_echoed :
  let answered := webhook service empty_challenge (initial scenario) in
  x_hook_secret empty_challenge = Some "" /\
  fst answered <> handshake "" /\
  headers (fst answered) = [] /\
  body (fst answered) = JsonBody (JObj [("status", JStr "success")]) /\
  calls (snd answered) =
    [GetTask (JStr "T1"); GetProjectTasks (JStr "P");
     GetTask (JStr "T2"); PutDueOn (JStr "T2") "2024-01-07";
     GetTask (JStr "T3"); PutDueOn (JStr "T3") "2024-01-08"].
Proof. vm_compute. repeat split. discriminate. Qed.

End Concrete.

(** ** The calendar on concrete dates *)

Section Calendar.
Import Datetime.

Example shift_in_month : shift_two_days (JStr "2024-01-05") = Ok "2024-01-07".
Proof. reflexivity. Qed.

Example shift_leap_february : shift_two_days (JStr "2024-02-28") = Ok "2024-03-01".
Proof. reflexivity. Qed.

Example shift_plain_february : shift_two_days (JStr "2023-02-28") = Ok "2023-03-02".
Proof. reflexivity. Qed.

Example shift_new_year : shift_two_days (JStr "2023-12-31") = Ok "2024-01-02".
Proof. reflexivity. Qed.

Example shift_unpadded : shift_two_days (JStr "2024-1-5") = Ok "2024-01-07".
Proof. reflexivity. Qed.

Example shift_bad_day : shift_two_days (JStr "2023-02-30") = Raise ValueError.
Proof. reflexivity. Qed.

Example shift_not_a_date : shift_two_days (JStr "tomorrow") = Raise ValueError.
Proof. reflexivity. Qed.

Example shift_not_text : shift_two_days (JInt 20240105) = Raise TypeError.
Proof. reflexivity. Qed.

Example shift_last_day : shift_two_days (JStr "9999-12-31") = Raise OverflowError.
Proof. reflexivity. Qed.

Example ordinal_of_last_day : strptime (JStr "9999-12-31") = Ok MAXORDINAL.
Proof. reflexivity. Qed.

Example ordinal_of_first_day : strptime (JStr "0001-01-01") = Ok 1.
Proof. reflexivity. Qed.

End Calendar.

(** * Further properties of [server.py] *)

Import Shape.

Section Fetching.
Context {W : Type} (svc : Service W).
Implicit Types (s : State W) (task_id project_gid : Json).

(** The state after one request was answered. *)
Lemma request_state c s :
  snd (request svc c s) =
  {| processed_events := processed_events s;
     world := snd (answer svc c (world s));
     calls := calls s ++ [c] |}.
Proof. unfold request. by destruct (answer svc c (world s)). Qed.

Lemma request_result c s : fst (request svc c s) = fst (answer svc c (world s)).
Proof. unfold request. by destruct (answer svc c (world s)). Qed.

(** [fetch_task_details] never raises and issues exactly one request; it
    yields [None] when the request raises, the status is not 200, the body
    is not JSON or the body is not an object, and the entry ["data"] of the
    body ([None] when there is none) otherwise. *)
Theorem fetch_task_details_outcome task_id s :
  fetch_task_details svc task_id s =
  (Ok match fst (answer svc (GetTask task_id) (world s)) with
      | Ok response =>
          if status_code response =? 200 then
            match json response with
            | Ok (JObj kvs) =>
                match dict_lookup "data" kvs with
                | Some data => data
                | None => JNull
                end
            | _ => JNull
            end
          else JNull
      | Raise _ => JNull
      end,
   {| processed_events := processed_events s;
      world := snd (answer svc (GetTask task_id) (world s));
      calls := calls s ++ [GetTask task_id] |}).
Proof.
  unfold fetch_task_details, request. unmonad.
  destruct (answer svc (GetTask task_id) (world s)) as [[response|e] w]; [|done].
  cbn [fst snd]. destruct (status_code response =? 200); [|done].
  destruct (json response) as [[]|e]; done.
Qed.

(** [get_in_progress_tasks] never raises and issues exactly one request;
    it yields the empty list when the request raises, the status is not
    200, the body is not JSON or is not an object, the entry ["data"]
    cannot be iterated, or the scan of a listed task raises. *)
Theorem get_in_progress_tasks_outcome project_gid s :
  get_in_progress_tasks svc project_gid s =
  (Ok match fst (answer svc (GetProjectTasks project_gid) (world s)) with
      | Ok response =>
          if status_code response =? 200 then
            match (body ← json response;
                   tasks ← get body "data" (JArr []);
                   tasks ← iter tasks;
                   filter_in_progress tasks) with
            | Ok in_progress_tasks => in_progress_tasks
            | Raise _ => []
            end
          else []
      | Raise _ => []
      end,
   {| processed_events := processed_events s;
      world := snd (answer svc (GetProjectTasks project_gid) (world s));
      calls := calls s ++ [GetProjectTasks project_gid] |}).
Proof.
  unfold get_in_progress_tasks, request. unmonad.
  destruct (answer svc (GetProjectTasks project_gid) (world s)) as [[response|e] w];
    [|done].
  cbn [fst snd]. destruct (status_code response =? 200); [|done].
  destruct (json response) as [body|e]; [|done].
  destruct (get body "data" (JArr [])) as [tasks|e]; [|done].
  destruct (iter tasks) as [ts|e]; [|done].
  by destruct (filter_in_progress ts).
Qed.

End Fetching.

Section Listing.
Implicit Types (task : Json) (tasks : list Json).

Lemma filter_in_progress_cons task tasks :
  filter_in_progress (task :: tasks) =
  (hit ← kept task;
   in_progress_tasks ← filter_in_progress tasks;
   mret (if hit : bool then task :: in_progress_tasks else in_progress_tasks)).
Proof.
  cbn [filter_in_progress]. unfold kept. unmonad.
  destruct (get task "custom_fields" (JArr [])) as [cf|]; [|done].
  by destruct (iter cf).
Qed.

(** When the listing loop completes, its result is the listed tasks that
    pass the stage test, in the order of the listing. *)
Theorem filter_in_progress_keeps tasks in_progress_tasks :
  filter_in_progress tasks = Ok in_progress_tasks ->
  in_progress_tasks = List.filter is_kept tasks /\
  Forall (fun task => kept task = Ok true) in_progress_tasks.
Proof.
  revert in_progress_tasks. induction tasks as [|task tasks IH]; intros ts.
  - intros [= <-]. by split.
  - rewrite filter_in_progress_cons. unmonad. cbn [List.filter]. unfold is_kept.
    destruct (kept task) as [hit|] eqn:Hkept; [|done].
    destruct (filter_in_progress tasks) as [ts'|]; [|done].
    destruct (IH ts' eq_refl) as [-> Hall]. intros [= <-].
    destruct hit; split; try done. by constructor.
Qed.

(** All or nothing: one listed task that is not an object makes the loop
    raise, so the listing yields no task at all, the well-formed ones
    before it included. *)
Lemma filter_in_progress_raises tasks :
  Exists (fun task => is_object task = false) tasks ->
  exists e, filter_in_progress tasks = Raise e.
Proof.
  induction 1 as [task tasks Hbad | task tasks _ IH].
  - rewrite filter_in_progress_cons. unfold kept. unmonad.
    destruct task; try discriminate Hbad; by eexists.
  - rewrite filter_in_progress_cons. unmonad. destruct IH as [e ->].
    destruct (kept task); by eexists.
Qed.

Theorem get_in_progress_tasks_all_or_nothing
    {W : Type} (svc : Service W) (project_gid : Json) (s : State W)
    response w kvs tasks :
  answer svc (GetProjectTasks project_gid) (world s) = (Ok response, w) ->
  status_code response = 200 ->
  json response = Ok (JObj kvs) ->
  dict_lookup "data" kvs = Some (JArr tasks) ->
  Exists (fun task => is_object task = false) tasks ->
  fst (get_in_progress_tasks svc project_gid s) = Ok [].
Proof.
  intros Hanswer Hstatus Hjson Hdata Hbad.
  destruct (filter_in_progress_raises tasks Hbad) as [e Hraise].
  unfold get_in_progress_tasks, request. unmonad.
  rewrite Hanswer, Hstatus, Hjson. cbn [Z.eqb Pos.eqb get]. rewrite Hdata.
  cbn [iter]. by rewrite Hraise.
Qed.

End Listing.

Section Scans.
Implicit Types (j : Json) (f : Field) (js : list Json) (fs : list Field).

(** The stage test of the listing accepts a task exactly when some field
    named "stage" has the value "in progress", names and values compared up
    to case: an earlier stage field with another value or no value does not
    stop the search. *)
Theorem in_progress_scan_any js fs :
  Forall2 field_repr js fs ->
  in_progress_scan js = Ok (existsb says_in_progress fs).
Proof.
  induction 1 as [|j f js fs Hrepr _ IH]; [done|].
  cbn [in_progress_scan existsb]. unfold says_in_progress at 1.
  pose proof (field_repr_name _ _ Hrepr) as Hname. unmonad.
  destruct (get j "name" (JStr "")) as [name|]; [|done].
  rewrite Hname.
  destruct (String.eqb (str_lower (field_name f)) "stage"); [|exact IH].
  destruct (field_value f) as [v|] eqn:Hvalue; cbn [andb orb].
  - destruct (field_repr_set _ _ _ Hrepr Hvalue) as (ev & -> & -> & -> & Hvname).
    unmonad. destruct (get ev "name" (JStr "")) as [vname|]; [|done].
    rewrite Hvname. by destruct (String.eqb (str_lower v) "in progress").
  - by destruct (field_repr_unset _ _ Hrepr Hvalue) as (ev & -> & ->).
Qed.

(** The cascade trigger decides on the last field named "stage" and the
    last field named "priority": it holds exactly when the first has the
    value "in progress" and the second the value "high", up to case. *)
Theorem trigger_reads_last_fields task_data js fs :
  get task_data "custom_fields" (JArr []) = Ok (JArr js) ->
  Forall2 field_repr js fs ->
  is_high_priority_in_progress task_data =
  bool_decide (value_of (last_field "stage" fs None) = Some "in progress") &&
  bool_decide (value_of (last_field "priority" fs None) = Some "high").
Proof. apply is_high_priority_in_progress_last. Qed.

Lemma scan_stage_priority_raises js (s0 p0 : option Json) :
  Exists (fun j => is_object j = false) js ->
  exists e, scan_stage_priority js s0 p0 = Raise e.
Proof.
  intros Hbad. revert s0 p0.
  induction Hbad as [j js Hj | j js _ IH]; intros s0 p0; cbn [scan_stage_priority].
  - destruct j; try discriminate Hj; by eexists.
  - unmonad. destruct (get j "name" (JStr "")) as [name|]; [|by eexists].
    destruct (lower name) as [lname|]; [|by eexists]. apply IH.
Qed.

(** The cascade trigger is off for a task one of whose custom fields is
    not an object, wherever that field stands and whatever the stage and
    the priority fields say. *)
Theorem trigger_needs_every_field task_data js :
  get task_data "custom_fields" (JArr []) = Ok (JArr js) ->
  Exists (fun j => is_object j = false) js ->
  is_high_priority_in_progress task_data = false.
Proof.
  intros Hfields Hbad. unfold is_high_priority_in_progress. unmonad.
  rewrite Hfields. cbn [iter].
  by destruct (scan_stage_priority_raises js None None Hbad) as [e ->].
Qed.

Lemma find_priority_field_stops js fs (rest : list Json) :
  Forall2 field_repr js fs ->
  (1 <= count_named "priority" fs)%nat ->
  find_priority_field (js ++ rest) = find_priority_field js.
Proof.
  induction 1 as [|j f js fs Hrepr _ IH]; cbn [count_named]; [lia|].
  cbn [app find_priority_field].
  pose proof (field_repr_name _ _ Hrepr) as Hname. unmonad.
  destruct (get j "name" (JStr "")) as [name|]; [|done].
  rewrite Hname.
  by destruct (String.eqb (str_lower (field_name f)) "priority").
Qed.

End Scans.

Section MoreDueDates.
Context {W : Type} (svc : Service W).
Implicit Types (s : State W) (task_id task_data task : Json).

(** The priority rule stops at the first field named "priority": whatever
    follows it in the collection, well formed or not, is never looked at,
    so two tasks that agree on the due date and on the fields up to that
    one are treated alike. *)
Theorem priority_rule_ignores_later_fields
    task_id task_data task_data' js fs (rest : list Json) s :
  get task_data "due_on" JNull = get task_data' "due_on" JNull ->
  get task_data "custom_fields" (JArr []) = Ok (JArr (js ++ rest)) ->
  get task_data' "custom_fields" (JArr []) = Ok (JArr js) ->
  Forall2 field_repr js fs ->
  (1 <= count_named "priority" fs)%nat ->
  handle_priority_based_due_date svc task_id task_data s =
  handle_priority_based_due_date svc task_id task_data' s.
Proof.
  intros Hdue Hfields Hfields' Hall Hcount.
  unfold handle_priority_based_due_date. unmonad.
  rewrite Hdue, Hfields, Hfields'. cbn [iter].
  by rewrite (find_priority_field_stops _ _ rest Hall Hcount).
Qed.

Lemma handle_priority_based_due_date_outcome task_id task_data s :
  handle_priority_based_due_date svc task_id task_data s = (Ok tt, s) \/
  exists due_on,
    handle_priority_based_due_date svc task_id task_data s =
    (Ok tt, {| processed_events := processed_events s;
               world := snd (answer svc (PutDueOn task_id due_on) (world s));
               calls := calls s ++ [PutDueOn task_id due_on] |}).
Proof.
  unfold handle_priority_based_due_date, utcnow. unmonad.
  destruct (get task_data "due_on" JNull) as [due|]; [|by left].
  destruct (truthy due); [by left|].
  destruct (get task_data "custom_fields" (JArr [])) as [cf|]; [|by left].
  destruct (iter cf) as [js|]; [|by left].
  destruct (find_priority_field js) as [jo|]; [|by left].
  destruct (field_unset jo) as [[]|]; try by left.
  destruct (enum_name jo) as [priority_value|]; [|by left].
  destruct (priority_to_days priority_value) as [days|]; [|by left].
  destruct (Datetime.add_days _ days) as [day|]; [|by left].
  right. exists (Datetime.strftime day).
  pose proof (request_state svc (PutDueOn task_id (Datetime.strftime day)) s) as Hstate.
  destruct (request svc (PutDueOn task_id (Datetime.strftime day)) s) as [[r|e] s'];
    simpl in Hstate; by subst s'.
Qed.

(** On every input the priority rule returns without an exception, leaves
    the ledger alone and issues at most one request, an update of the task
    it was called for. *)
Theorem priority_rule_writes_once task_id task_data s :
  handle_priority_based_due_date svc task_id task_data s = (Ok tt, s) \/
  exists due_on,
    handle_priority_based_due_date svc task_id task_data s =
    (Ok tt, {| processed_events := processed_events s;
               world := snd (answer svc (PutDueOn task_id due_on) (world s));
               calls := calls s ++ [PutDueOn task_id due_on] |}).
Proof. apply handle_priority_based_due_date_outcome. Qed.

(** A task that names no project starts no cascade: when the memberships
    are an empty list, or the first one carries no project identity, no
    request is issued and nothing changes. *)
Theorem cascade_needs_project excluded_task_id task_data s :
  match (memberships ← get task_data "memberships" (JArr [JObj []]);
         membership ← index0 memberships;
         project ← get membership "project" (JObj []);
         get project "gid" JNull) with
  | Ok project_gid => truthy project_gid = false
  | Raise _ => True
  end ->
  adjust_due_dates_for_in_progress svc excluded_task_id task_data s = (Ok tt, s).
Proof.
  unfold adjust_due_dates_for_in_progress. unmonad.
  destruct (get task_data "memberships" (JArr [JObj []])) as [memberships|]; [|done].
  destruct (index0 memberships) as [membership|]; [|done].
  destruct (get membership "project" (JObj [])) as [project|]; [|done].
  destruct (get project "gid" JNull) as [project_gid|]; [|done].
  by intros ->.
Qed.

(** What the cascade does with one listed task, on every input: nothing;
    or one fetch; or one fetch and one update of that task.  A marker is
    added only after an update answered with status 200, and it pairs the
    task with the date that was written. *)
Theorem adjust_one_outcomes excluded_task_id task s :
  let s' := snd (adjust_one svc excluded_task_id task s) in
  s' = s \/
  exists task_id,
    getitem task "gid" = Ok task_id /\
    eqb task_id excluded_task_id = false /\
    let fetched := snd (fetch_task_details svc task_id s) in
    (s' = fetched \/
     exists due_on,
       let written := snd (request svc (PutDueOn task_id due_on) fetched) in
       s' = written \/
       exists response t,
         fst (request svc (PutDueOn task_id due_on) fetched) = Ok response /\
         status_code response = 200 /\
         hashable task_id = Ok t /\
         s' = mark (UpdateMarker t (AStr due_on)) written).
Proof.
  intros s'. subst s'. unfold adjust_one. unmonad.
  destruct (getitem task "gid") as [task_id|]; [|by left].
  destruct (eqb task_id excluded_task_id) eqn:Hother; [by left|].
  right. exists task_id. split; [done|]. split; [done|]. cbn zeta.
  destruct (fetch_task_details svc task_id s) as [[details|e] sf]; [|by left].
  destruct (negb (truthy details)); [by left|].
  destruct (get details "due_on" JNull) as [current|]; [|by left].
  destruct (negb (truthy current)); [by left|].
  unfold is_due_date_updated, ledger_mem, update_key. unmonad.
  destruct (hashable task_id) as [t|] eqn:Ht; [|by left].
  destruct (hashable current) as [c|]; [|by left].
  destruct (bool_decide _); [by left|].
  destruct (Datetime.shift_two_days current) as [new|]; [|by left].
  right. exists new. cbn zeta. cbn [snd].
  destruct (request svc (PutDueOn task_id new) sf) as [[response|e] sw]; [|by left].
  destruct (status_code response =? 200) eqn:Hstatus; [|by left].
  right. exists response, t. apply Z.eqb_eq in Hstatus.
  by repeat split.
Qed.

End MoreDueDates.

Section MoreCascade.
Context {W : Type} (svc : Service W).
Implicit Types (s : State W) (task_id task_data task : Json).

(** An update that the service refuses is not recorded and the pass goes
    on with the next task; an update on which the request itself raises is
    not recorded either, and the exception leaves the loop. *)
Theorem refused_update_is_not_recorded
    excluded_task_id task task_id t s details sf current c new_due_date :
  getitem task "gid" = Ok task_id ->
  eqb task_id excluded_task_id = false ->
  hashable task_id = Ok t ->
  fetch_task_details svc task_id s = (Ok details, sf) ->
  truthy details = true ->
  get details "due_on" JNull = Ok current ->
  truthy current = true ->
  hashable current = Ok c ->
  UpdateMarker t c ∉ processed_events s ->
  Datetime.shift_two_days current = Ok new_due_date ->
  let written w :=
    {| processed_events := processed_events s; world := w;
       calls := calls s ++ [GetTask task_id; PutDueOn task_id new_due_date] |} in
  (forall response w,
      answer svc (PutDueOn task_id new_due_date) (world sf) = (Ok response, w) ->
      status_code response <> 200 ->
      adjust_one svc excluded_task_id task s = (Ok tt, written w)) /\
  (forall e w,
      answer svc (PutDueOn task_id new_due_date) (world sf) = (Raise e, w) ->
      adjust_one svc excluded_task_id task s = (Raise e, written w)).
Proof.
  intros Hgid Hother Ht Hfetch Hdetails Hdue Hcurrent Hc Hfresh Hshift written.
  destruct (fetch_task_details_ledger _ _ _ _ _ Hfetch) as [Hledger Hcalls].
  assert (forall r w,
             answer svc (PutDueOn task_id new_due_date) (world sf) = (r, w) ->
             adjust_one svc excluded_task_id task s =
             match r with
             | Ok response =>
                 if status_code response =? 200
                 then (Ok tt, mark (UpdateMarker t (AStr new_due_date)) (written w))
                 else (Ok tt, written w)
             | Raise e => (Raise e, written w)
             end) as Hrun.
  { intros r w Hput.
    unfold adjust_one, is_due_date_updated, ledger_mem, ledger_add, update_key,
      request.
    unmonad.
    rewrite Hgid, Hother, Hfetch, Hdetails. cbn [negb].
    rewrite Hdue, Hcurrent. cbn [negb]. rewrite Ht, Hc, Hledger.
    rewrite bool_decide_eq_false_2 by done.
    rewrite Hshift, Hput. subst written. unfold mark. cbn [hashable].
    rewrite Hledger, Hcalls, <- app_assoc.
    destruct r as [response|e]; [|done].
    by destruct (status_code response =? 200). }
  split.
  - intros response w Hput Hstatus. rewrite (Hrun _ _ Hput).
    apply Z.eqb_neq in Hstatus. by rewrite Hstatus.
  - intros e w Hput. by rewrite (Hrun _ _ Hput).
Qed.

Lemma for_each_app {A} (xs ys : list A) (body : A -> M W unit) s :
  for_each (xs ++ ys) body s =
  match for_each xs body s with
  | (Ok _, s') => for_each ys body s'
  | (Raise e, s') => (Raise e, s')
  end.
Proof.
  revert s. induction xs as [|x xs IH]; intros s; [done|].
  cbn [app for_each]. unfold mbind, M_bind.
  destruct (body x s) as [[[]|e] s']; [apply IH | done].
Qed.

(** The loop of the cascade has no handler of its own: a listed task
    without the entry ["gid"] ends the pass, and the tasks listed after it
    are neither fetched nor updated. *)
Theorem cascade_stops_at_task_without_gid
    excluded_task_id (before after : list Json) bad e s :
  getitem bad "gid" = Raise e ->
  snd (for_each (before ++ bad :: after) (adjust_one svc excluded_task_id) s) =
  snd (for_each before (adjust_one svc excluded_task_id) s) /\
  exists e', fst (for_each (before ++ bad :: after)
                    (adjust_one svc excluded_task_id) s) = Raise e'.
Proof.
  intros Hgid. rewrite for_each_app.
  destruct (for_each before (adjust_one svc excluded_task_id) s) as [[[]|e0] s'].
  - cbn [for_each]. unfold adjust_one. unmonad. rewrite Hgid. by eauto.
  - by eauto.
Qed.

End MoreCascade.

Section MoreEndpoint.
Context {W : Type} (svc : Service W).
Implicit Types (s : State W) (request : Request) (event : Json).

(** Whatever requests are served, no marker ever leaves the ledger, and
    the task service is reached only through the requests of the log. *)
Theorem ledger_only_grows (requests : list Request) s :
  processed_events s ⊆ processed_events (serve svc requests s) /\
  exists new,
    calls (serve svc requests s) = calls s ++ new /\
    world (serve svc requests s) = replay svc new (world s).
Proof.
  destruct (serve_steps svc requests s) as [Hsub (new & Hcalls & Hworld & _)].
  split; [done|]. by exists new.
Qed.

(** Only a POST is processed: a request of another method changes nothing,
    whatever its body holds; it is answered with the echo when it carries a
    challenge that is not empty and with status 400 otherwise. *)
Theorem only_post_is_processed request s :
  method request <> POST ->
  webhook svc request s =
  (match x_hook_secret request with
   | Some secret => if String.eqb secret "" then invalid_request else handshake secret
   | None => invalid_request
   end, s).
Proof.
  intros Hmethod. unfold webhook, respond.
  destruct (x_hook_secret request) as [secret|].
  - destruct (String.eqb secret ""); [|done]. by destruct (method request).
  - by destruct (method request).
Qed.

Lemma event_without_identity event :
  has_identity event = false -> exists e, event_key event = Raise e.
Proof.
  unfold event_key. unmonad.
  destruct event as [| | | | |kvs]; try (intros _; by eexists).
  cbn [has_identity getitem].
  destruct (dict_lookup "created_at" kvs); [|by eexists].
  destruct (dict_lookup "resource" kvs) as [resource|]; [|by eexists].
  destruct (dict_lookup "action" kvs); [done|].
  intros _. destruct (getitem resource "gid"); by eexists.
Qed.

(** Events that are not objects, or lack one of the entries ["created_at"],
    ["resource"] and ["action"], are passed over in silence: a delivery
    made of such events is answered with the success response and changes
    nothing. *)
Theorem events_without_identity_are_ignored request events s :
  method request = POST ->
  no_challenge request ->
  request_events request = Ok events ->
  Forall (fun event => has_identity event = false) events ->
  webhook svc request s = (success, s).
Proof.
  intros Hpost Hplain Hevents Hall.
  rewrite (webhook_delivery _ _ _ Hplain). unfold respond, deliver. unmonad.
  rewrite Hpost, Hevents, for_each_process_event.
  rewrite run_events_settled; [done|].
  eapply Forall_impl; [exact Hall|]. intros event Hbad k Hkey.
  destruct (event_without_identity _ Hbad) as [e He]. congruence.
Qed.

End MoreEndpoint.

Section MoreDispatcher.
Context {W : Type} (svc : Service W).
Implicit Types (s : State W) (event : Json).

Lemma bind_run {A B} (m : M W A) (f : A -> M W B) s :
  (m ≫= f) s =
  match m s with
  | (Ok a, s') => f a s'
  | (Raise e, s') => (Raise e, s')
  end.
Proof. reflexivity. Qed.

Lemma lift_run {A} (x : Exc A) s : lift x s = (x, s).
Proof. reflexivity. Qed.

(** An event of a task that does not trigger the cascade touches that
    task only: the task is fetched, it is updated at most once (by the
    priority rule), no other request is issued and the only marker added is
    the one of the event. *)
Theorem event_touches_only_its_task
    event resource task_id action k s task_data sf :
  getitem event "resource" = Ok resource ->
  getitem resource "gid" = Ok task_id ->
  getitem event "action" = Ok action ->
  event_key event = Ok k ->
  k ∉ processed_events s ->
  fetch_task_details svc task_id (mark k s) = (Ok task_data, sf) ->
  is_high_priority_in_progress task_data = false ->
  let s1 := snd (process_event svc event s) in
  processed_events s1 = {[k]} ∪ processed_events s /\
  (calls s1 = calls s ++ [GetTask task_id] \/
   exists due_on,
     calls s1 = calls s ++ [GetTask task_id; PutDueOn task_id due_on]).
Proof.
  intros Hres Hgid Hact Hkey Hfresh Hfetch Hquiet s1.
  destruct (fetch_task_details_ledger _ _ _ _ _ Hfetch) as [Hledger Hcalls].
  cbn [mark processed_events calls] in Hledger, Hcalls.
  assert (s1 = sf \/
          exists due_on,
            s1 = {| processed_events := processed_events sf;
                    world := snd (answer svc (PutDueOn task_id due_on) (world sf));
                    calls := calls sf ++ [PutDueOn task_id due_on] |}) as Hs1.
  { subst s1. rewrite process_event_state, (process_event_fresh _ _ _ _ Hkey Hfresh).
    unfold dispatch. rewrite Hkey, ledger_add_then.
    rewrite bind_run, lift_run, Hres. rewrite bind_run, lift_run, Hgid.
    rewrite bind_run, Hfetch.
    destruct (negb (truthy task_data)); [by left|].
    rewrite bind_run, lift_run, Hact.
    destruct (eqb action (JStr "changed")); [|by left].
    rewrite bind_run, lift_run, Hquiet.
    destruct (contains "custom_fields" task_data) as [[]|]; try by left.
    rewrite bind_run.
    destruct (handle_priority_based_due_date_outcome svc task_id task_data sf)
      as [-> | [due_on ->]]; [by left|].
    right. by exists due_on. }
  destruct Hs1 as [-> | [due_on ->]].
  - split; [done|]. by left.
  - split; [done|]. right. exists due_on. cbn [calls].
    by rewrite Hcalls, <- app_assoc.
Qed.

End MoreDispatcher.

(** * The calendar *)

Section CalendarFacts.
Import Datetime.

Lemma month_day_table leapyear n :
  0 <= n <= 364 -> month_day_ok leapyear n = true.
Proof.
  intros Hn.
  assert (forallb (month_day_ok leapyear) (map Z.of_nat (seq 0 365)) = true) as Hall.
  { destruct leapyear; vm_compute; reflexivity. }
  rewrite forallb_forall in Hall. apply Hall.
  apply in_map_iff. exists (Z.to_nat n). split; [lia|].
  apply in_seq. lia.
Qed.

Lemma ord2ymd_unfold ordinal :
  ord2ymd ordinal =
  let n := ordinal - 1 in
  let n400 := n / DI400Y in
  let n := n mod DI400Y in
  let n100 := n / DI100Y in
  let n := n mod DI100Y in
  let n4 := n / DI4Y in
  let n := n mod DI4Y in
  let n1 := n / 365 in
  let n := n mod 365 in
  let year := n400 * 400 + 1 + n100 * 100 + n4 * 4 + n1 in
  if (n1 =? 4) || (n100 =? 4) then (year - 1, 12, 31)
  else
    let '(month, day) :=
      month_day n ((n1 =? 3) && (negb (n4 =? 24) || (n100 =? 3))) in
    (year, month, day).
Proof.
  unfold ord2ymd, month_day. cbv zeta.
  destruct ((_ =? 4) || (_ =? 4)); [reflexivity|].
  destruct (_ <? _); reflexivity.
Qed.

Lemma is_leap_split a b c d :
  0 <= a -> 0 <= b <= 3 -> 0 <= c <= 24 -> 0 <= d <= 3 ->
  is_leap (a * 400 + 1 + b * 100 + c * 4 + d) =
  (d =? 3) && (negb (c =? 24) || (b =? 3)).
Proof.
  intros Ha Hb Hc Hd. unfold is_leap.
  destruct (Z.eqb_spec d 3), (Z.eqb_spec c 24), (Z.eqb_spec b 3);
    repeat match goal with
           | |- context [?x mod ?k =? 0] => destruct (Z.eqb_spec (x mod k) 0)
           end; simpl; try reflexivity; exfalso; Z.div_mod_to_equations; lia.
Qed.

Lemma days_before_year_split a b c d :
  0 <= a -> 0 <= b <= 3 -> 0 <= c <= 24 -> 0 <= d <= 3 ->
  days_before_year (a * 400 + 1 + b * 100 + c * 4 + d) =
  146097 * a + 36524 * b + 1461 * c + 365 * d.
Proof.
  intros Ha Hb Hc Hd. unfold days_before_year. cbv zeta.
  Z.div_mod_to_equations. lia.
Qed.

Lemma ord2ymd_correct n :
  1 <= n <= MAXORDINAL ->
  exists y m d,
    ord2ymd n = (y, m, d) /\
    1 <= y <= 9999 /\ 1 <= m <= 12 /\ 1 <= d <= days_in_month y m /\
    ymd2ord y m d = n.
Proof.
  unfold MAXORDINAL. intros Hn. rewrite ord2ymd_unfold. cbv zeta.
  unfold DI400Y, DI100Y, DI4Y.
  set (a := (n - 1) / 146097). set (r400 := (n - 1) mod 146097).
  set (b := r400 / 36524). set (r100 := r400 mod 36524).
  set (c := r100 / 1461). set (r4 := r100 mod 1461).
  set (d := r4 / 365). set (r1 := r4 mod 365).
  assert (n - 1 = 146097 * a + r400 /\ 0 <= r400 < 146097 /\ 0 <= a <= 24) as (Ea & Hr400 & Ha).
  { subst a r400. Z.div_mod_to_equations. lia. }
  assert (r400 = 36524 * b + r100 /\ 0 <= r100 < 36524 /\ 0 <= b <= 4) as (Eb & Hr100 & Hb).
  { subst b r100. Z.div_mod_to_equations. lia. }
  assert (r100 = 1461 * c + r4 /\ 0 <= r4 < 1461 /\ 0 <= c <= 24) as (Ec & Hr4 & Hc).
  { subst c r4. Z.div_mod_to_equations. lia. }
  assert (r4 = 365 * d + r1 /\ 0 <= r1 < 365 /\ 0 <= d <= 4) as (Ed & Hr1 & Hd).
  { subst d r1. Z.div_mod_to_equations. lia. }
  clearbody a r400 b r100 c r4 d r1.
  destruct (Z.eqb_spec d 4) as [Hd4|Hd4]; [|destruct (Z.eqb_spec b 4) as [Hb4|Hb4]];
    cbn [orb].
  - (* the last day of a leap year that ends a cycle of four years *)
    assert (c <= 23) by lia. assert (b <= 3) by lia.
    eexists _, 12, 31. split; [reflexivity|].
    assert (a * 400 + 1 + b * 100 + c * 4 + d - 1 =
            a * 400 + 1 + b * 100 + c * 4 + 3) as Hy by lia.
    rewrite Hy. unfold days_in_month, ymd2ord, days_before_month. cbn [Z.eqb Pos.eqb andb Z.ltb Z.compare Pos.compare Pos.compare_cont DAYS_IN_MONTH DAYS_BEFORE_MONTH].
    rewrite is_leap_split, days_before_year_split by lia.
    replace (3 =? 3) with true by reflexivity.
    destruct (Z.eqb_spec c 24); [lia|]. cbn. lia.
  - (* the last day of a cycle of four hundred years *)
    subst b. assert (c = 0 /\ d = 0 /\ r1 = 0 /\ r4 = 0 /\ r100 = 0) as (-> & -> & -> & -> & ->) by lia.
    eexists _, 12, 31. split; [reflexivity|].
    assert (a * 400 + 1 + 4 * 100 + 0 * 4 + 0 - 1 =
            a * 400 + 1 + 3 * 100 + 24 * 4 + 3) as Hy by lia.
    rewrite Hy. unfold days_in_month, ymd2ord, days_before_month. cbn [Z.eqb Pos.eqb andb Z.ltb Z.compare Pos.compare Pos.compare_cont DAYS_IN_MONTH DAYS_BEFORE_MONTH].
    rewrite is_leap_split, days_before_year_split by lia. cbn. lia.
  - assert (0 <= b <= 3) by lia. assert (0 <= d <= 3) by lia.
    pose proof (month_day_table ((d =? 3) && (negb (c =? 24) || (b =? 3))) r1
                  ltac:(lia)) as Hok.
    unfold month_day_ok in Hok.
    destruct (month_day r1 _) as [m dd].
    rewrite !andb_true_iff in Hok. destruct Hok as ((((H1 & H2) & H3) & H4) & H5).
    apply Z.leb_le in H1, H2, H3, H4. apply Z.eqb_eq in H5.
    exists (a * 400 + 1 + b * 100 + c * 4 + d), m, dd. split; [reflexivity|].
    unfold days_in_month, ymd2ord, days_before_month.
    rewrite is_leap_split, days_before_year_split by lia.
    split; [lia|]. split; [lia|]. split; [|lia].
    split; [lia|].
    destruct ((m =? 2) && _) eqn:Hm; [|lia].
    apply andb_true_iff in Hm as [Hm2 _]. apply Z.eqb_eq in Hm2. subst m.
    cbn in H4. lia.
Qed.

Lemma digit_digit_char k : 0 <= k <= 9 -> digit (digit_char k) = Some k.
Proof.
  intros Hk.
  assert (k = 0 \/ k = 1 \/ k = 2 \/ k = 3 \/ k = 4 \/ k = 5 \/ k = 6 \/ k = 7 \/
          k = 8 \/ k = 9) as Hcases by lia.
  repeat (destruct Hcases as [-> | Hcases]; [reflexivity|]). by subst k.
Qed.

Lemma parse_year_pad4 y rest :
  0 <= y <= 9999 -> parse_year (pad4 y +:+ rest) = Some (y, rest).
Proof.
  intros Hy. unfold pad4, pad2.
  change (String ?a (String ?b (String ?c (String ?d ""))) +:+ rest)
    with (String a (String b (String c (String d rest)))).
  unfold parse_year.
  rewrite !digit_digit_char by (Z.div_mod_to_equations; lia).
  do 2 f_equal. Z.div_mod_to_equations. lia.
Qed.

Lemma parse_month_pad2 m rest :
  1 <= m <= 12 -> parse_month (pad2 m +:+ "-" +:+ rest) = Some (m, rest).
Proof.
  intros Hm.
  assert (m = 1 \/ m = 2 \/ m = 3 \/ m = 4 \/ m = 5 \/ m = 6 \/ m = 7 \/ m = 8 \/
          m = 9 \/ m = 10 \/ m = 11 \/ m = 12) as Hcases by lia.
  repeat (destruct Hcases as [-> | Hcases]; [reflexivity|]). by subst m.
Qed.

Lemma parse_day_pad2 d : 1 <= d <= 31 -> parse_day (pad2 d) = Some d.
Proof.
  intros Hd.
  assert (Z.to_nat d < 32)%nat as Hlt by lia.
  replace d with (Z.of_nat (Z.to_nat d)) by lia.
  assert (Z.to_nat d <> 0)%nat as Hne by lia.
  revert Hlt Hne. generalize (Z.to_nat d). intros k Hlt Hne.
  do 32 (destruct k as [|k]; [try reflexivity; done|]). lia.
Qed.

Lemma days_in_month_le y m : 1 <= m <= 12 -> days_in_month y m <= 31.
Proof.
  intros Hm. unfold days_in_month.
  assert (m = 1 \/ m = 2 \/ m = 3 \/ m = 4 \/ m = 5 \/ m = 6 \/ m = 7 \/ m = 8 \/
          m = 9 \/ m = 10 \/ m = 11 \/ m = 12) as Hcases by lia.
  repeat (destruct Hcases as [-> | Hcases];
          [destruct (is_leap y); cbn; lia|]).
  subst m. cbn. lia.
Qed.

Lemma strptime_strftime n :
  1 <= n <= MAXORDINAL -> strptime (JStr (strftime n)) = Ok n.
Proof.
  intros Hn.
  destruct (ord2ymd_correct n Hn) as (y & m & d & Hymd & Hy & Hm & Hd & Hord).
  pose proof (days_in_month_le y m Hm) as Hdim.
  unfold strftime. rewrite Hymd. unfold strptime.
  rewrite parse_year_pad4 by lia.
  change ("-" +:+ ?rest) with (String "-" rest).
  cbn [Ascii.eqb Bool.eqb]. cbv iota.
  rewrite parse_month_pad2 by lia. rewrite parse_day_pad2 by lia.
  destruct (Z.leb_spec 1 y); [|lia]. destruct (Z.leb_spec d (days_in_month y m)); [|lia].
  cbn [andb]. by rewrite Hord.
Qed.

Lemma digit_range c k : digit c = Some k -> 0 <= k <= 9.
Proof.
  unfold digit. cbv zeta.
  destruct (Z.leb_spec 48 (Z.of_N (N_of_ascii c))); [|done].
  destruct (Z.leb_spec (Z.of_N (N_of_ascii c)) 57); [|done].
  intros [= <-]. lia.
Qed.

Lemma parse_year_range s y rest : parse_year s = Some (y, rest) -> 0 <= y <= 9999.
Proof.
  unfold parse_year.
  destruct s as [|a [|b [|c [|d s]]]]; try done.
  destruct (digit a) as [ka|] eqn:Ha; [|done].
  destruct (digit b) as [kb|] eqn:Hb; [|done].
  destruct (digit c) as [kc|] eqn:Hc; [|done].
  destruct (digit d) as [kd|] eqn:Hd; [|done].
  apply digit_range in Ha, Hb, Hc, Hd. intros [= <- _]. lia.
Qed.

Lemma parse_month_range s m rest : parse_month s = Some (m, rest) -> 1 <= m <= 12.
Proof.
  unfold parse_month. destruct s as [|a [|b s]]; try done.
  destruct (digit a) as [da|] eqn:Ha; [|done]. apply digit_range in Ha.
  destruct (Ascii.eqb b "-").
  - destruct (Z.leb_spec 1 da); [|done]. intros [= <- _]. lia.
  - destruct (digit b) as [db|] eqn:Hb; [|done]. apply digit_range in Hb.
    destruct s as [|c s]; [done|]. destruct (Ascii.eqb c "-"); [|done].
    destruct (Z.eqb_spec da 1), (Z.leb_spec db 2); cbn [andb].
    1: intros [= <- _]; lia.
    all: destruct (Z.eqb_spec da 0), (Z.leb_spec 1 db); cbn [andb]; try done;
      intros [= <- _]; lia.
Qed.

Lemma parse_day_range s d : parse_day s = Some d -> 1 <= d <= 31.
Proof.
  unfold parse_day. destruct s as [|a [|b [|]]]; try done.
  - destruct (digit a) as [da|] eqn:Ha; [|done]. apply digit_range in Ha.
    destruct (Z.leb_spec 1 da); [|done]. intros [= <-]. lia.
  - destruct (digit b) as [db|] eqn:Hb; [|done]. apply digit_range in Hb.
    destruct (digit a) as [da|] eqn:Ha.
    + apply digit_range in Ha.
      destruct (Z.eqb_spec da 3).
      { destruct (Z.leb_spec db 1); [|done]. intros [= <-]. lia. }
      destruct (Z.eqb_spec da 1); cbn [orb].
      { intros [= <-]. lia. }
      destruct (Z.eqb_spec da 2); cbn [orb].
      { intros [= <-]. lia. }
      destruct (Z.eqb_spec da 0); [|done].
      destruct (Z.leb_spec 1 db); [|done]. intros [= <-]. lia.
    + destruct (Ascii.eqb a " "); [|done].
      destruct (Z.leb_spec 1 db); [|done]. intros [= <-]. lia.
Qed.


Lemma ymd2ord_positive y m d : 1 <= y -> 1 <= m <= 12 -> 1 <= d -> 1 <= ymd2ord y m d.
Proof.
  intros Hy Hm Hd. unfold ymd2ord, days_before_month, days_before_year. cbv zeta.
  assert (0 <= DAYS_BEFORE_MONTH m) as Hdbm.
  { assert (m = 1 \/ m = 2 \/ m = 3 \/ m = 4 \/ m = 5 \/ m = 6 \/ m = 7 \/ m = 8 \/
            m = 9 \/ m = 10 \/ m = 11 \/ m = 12) as Hcases by lia.
    repeat (destruct Hcases as [-> | Hcases]; [cbn; lia|]). subst m. cbn. lia. }
  destruct ((2 <? m) && is_leap y); Z.div_mod_to_equations; lia.
Qed.

Lemma strptime_positive x d : strptime x = Ok d -> 1 <= d.
Proof.
  unfold strptime. destruct x as [| | |s| |]; try done.
  destruct (parse_year s) as [[y [|sep s1]]|] eqn:Hy; try done.
  destruct (Ascii.eqb sep "-"); [|done].
  destruct (parse_month s1) as [[m s2]|] eqn:Hm; [|done].
  destruct (parse_day s2) as [day|] eqn:Hd; [|done].
  destruct (Z.leb_spec 1 y); [|done]. cbn [andb].
  destruct (day <=? days_in_month y m); [|done].
  apply parse_month_range in Hm. apply parse_day_range in Hd.
  intros [= <-]. apply ymd2ord_positive; lia.
Qed.


End CalendarFacts.

(** * The setup script *)

Import Setup.

Ltac unsetup :=
  unfold mbind, mret, S_bind, S_ret, raise, pure, reported in *.

Section SetupScript.
Context {W : Type} (api : Api W).
Implicit Types (r : Run W) (env : Env).

Lemma call_eq token c r :
  call api token c r =
  let answer :=
    match c with
    | GetWorkspaces => api_get_workspaces api token (api_world r)
    | GetProjects workspace_id => api_get_projects api token workspace_id (api_world r)
    | PostWebhook body => api_post_webhook api token body (api_world r)
    end in
  (match fst answer with
   | Ok response => Done response
   | Raise e => Fail (Builtin e)
   end, sent answer c r).
Proof.
  unfold call, sent, pure. cbv zeta.
  destruct c as [|workspace_id|body].
  - by destruct (api_get_workspaces api token (api_world r)) as [[response|e] w].
  - by destruct (api_get_projects api token workspace_id (api_world r))
      as [[response|e] w].
  - by destruct (api_post_webhook api token body (api_world r)) as [[response|e] w].
Qed.

Lemma get_workspace_id_eq token r :
  get_workspace_id api token r =
  let answer := api_get_workspaces api token (api_world r) in
  (match fst answer with
   | Ok response => first_gid NoWorkspacesFound response
   | Raise e => Fail (Builtin e)
   end, sent answer GetWorkspaces r).
Proof.
  unfold get_workspace_id, first_gid. unfold mbind at 1, S_bind at 1.
  rewrite call_eq. cbv zeta.
  destruct (api_get_workspaces api token (api_world r)) as [[response|e] w]; [|done].
  cbn [fst snd]. unsetup.
  destruct (json response) as [body|]; [|done].
  destruct (getitem body "data") as [items|]; [|done].
  destruct (truthy items); [|done]. cbn [negb].
  destruct (index0 items) as [item|]; [|done].
  by destruct (getitem item "gid").
Qed.

Lemma get_project_id_eq token workspace_id r :
  get_project_id api token workspace_id r =
  let answer := api_get_projects api token workspace_id (api_world r) in
  (match fst answer with
   | Ok response => first_gid NoProjectsFound response
   | Raise e => Fail (Builtin e)
   end, sent answer (GetProjects workspace_id) r).
Proof.
  unfold get_project_id, first_gid. unfold mbind at 1, S_bind at 1.
  rewrite call_eq. cbv zeta.
  destruct (api_get_projects api token workspace_id (api_world r)) as [[response|e] w];
    [|done].
  cbn [fst snd]. unsetup.
  destruct (json response) as [body|]; [|done].
  destruct (getitem body "data") as [items|]; [|done].
  destruct (truthy items); [|done]. cbn [negb].
  destruct (index0 items) as [item|]; [|done].
  by destruct (getitem item "gid").
Qed.

(** The two lookups take the first entry of the list under ["data"] and
    never look at the status of the answer or at the other entries; an
    empty list raises the exception of the lookup. *)
Theorem lookups_take_the_first token workspace_id r response kvs items :
  json response = Ok (JObj kvs) ->
  dict_lookup "data" kvs = Some (JArr items) ->
  let found :=
    match items with
    | [] => None
    | item :: _ =>
        Some match getitem item "gid" with
             | Ok gid => Done gid
             | Raise e => Fail (Builtin e)
             end
    end in
  (forall w,
      api_get_workspaces api token (api_world r) = (Ok response, w) ->
      get_workspace_id api token r =
      (match found with Some gid => gid | None => Fail NoWorkspacesFound end,
       {| api_world := w; requests := requests r ++ [GetWorkspaces] |})) /\
  (forall w,
      api_get_projects api token workspace_id (api_world r) = (Ok response, w) ->
      get_project_id api token workspace_id r =
      (match found with Some gid => gid | None => Fail NoProjectsFound end,
       {| api_world := w;
          requests := requests r ++ [GetProjects workspace_id] |})).
Proof.
  intros Hjson Hdata found.
  assert (forall f, first_gid f response =
                    match found with Some gid => gid | None => Fail f end) as Hfirst.
  { intros f. unfold first_gid. rewrite Hjson. cbn [getitem]. rewrite Hdata.
    subst found. destruct items as [|item items]; [done|]. cbn [truthy index0].
    by destruct (getitem item "gid"). }
  split; intros w Hanswer.
  - rewrite get_workspace_id_eq, Hanswer. cbv zeta. cbn [fst]. by rewrite Hfirst.
  - rewrite get_project_id_eq, Hanswer. cbv zeta. cbn [fst]. by rewrite Hfirst.
Qed.

Lemma create_webhook_eq token resource_id target_url r :
  create_webhook api token resource_id target_url r =
  let c := PostWebhook (webhook_data resource_id target_url) in
  let answer := api_post_webhook api token (webhook_data resource_id target_url)
                  (api_world r) in
  (match fst answer with
   | Raise e => Fail (Builtin e)
   | Ok response =>
       match json response with
       | Raise e => Fail (Builtin e)
       | Ok body =>
           if status_code response =? 201 then
             match getitem body "data" with
             | Ok data => Done data
             | Raise e => Fail (Builtin e)
             end
           else Done JNull
       end
   end,
   {| api_world := snd answer; requests := requests r ++ [c] |}).
Proof.
  unfold create_webhook. unfold mbind at 1, S_bind at 1. rewrite call_eq. cbv zeta.
  destruct (api_post_webhook api token _ (api_world r)) as [[response|e] w]; [|done].
  cbn [fst snd]. unsetup. unfold sent. cbn [snd].
  destruct (status_code response =? 201).
  - destruct (json response) as [body|]; [|done]. by destruct (getitem body "data").
  - by destruct (json response).
Qed.

(** [create_webhook] issues exactly one request, the registration with the
    two task filters.  It yields the entry ["data"] of the answer for the
    status 201 and [None] for any other status; on a refusal whose body is
    not JSON it raises, because that body is printed first. *)
Theorem create_webhook_outcome token resource_id target_url r :
  create_webhook api token resource_id target_url r =
  let c := PostWebhook (webhook_data resource_id target_url) in
  let answer := api_post_webhook api token (webhook_data resource_id target_url)
                  (api_world r) in
  (match fst answer with
   | Raise e => Fail (Builtin e)
   | Ok response =>
       match json response with
       | Raise e => Fail (Builtin e)
       | Ok body =>
           if status_code response =? 201 then
             match getitem body "data" with
             | Ok data => Done data
             | Raise e => Fail (Builtin e)
             end
           else Done JNull
       end
   end,
   {| api_world := snd answer; requests := requests r ++ [c] |}).
Proof. apply create_webhook_eq. Qed.

(** [main] stops with its [ValueError] before any request when the access
    token or, the token being set, the target address is missing or
    empty. *)
Theorem main_needs_environment env r :
  (ASANA_ACCESS_TOKEN env = None \/ ASANA_ACCESS_TOKEN env = Some "" ->
   main api env r = (Fail MissingAccessToken, r)) /\
  (forall token,
      ASANA_ACCESS_TOKEN env = Some token -> token <> "" ->
      WEBHOOK_URL env = None \/ WEBHOOK_URL env = Some "" ->
      main api env r = (Fail MissingWebhookUrl, r)).
Proof.
  unfold main, required. split.
  - by intros [-> | ->].
  - intros token -> Htoken Hurl. apply String.eqb_neq in Htoken.
    unsetup. rewrite Htoken. by destruct Hurl as [-> | ->].
Qed.


End SetupScript.

(** * The further properties on concrete inputs *)

Section MoreConcrete.
Import Asana Fixtures.

Lemma filter_in_progress_keeps_witness :
  filter_in_progress (tasks scenario) = Ok (tasks scenario) /\
  tasks scenario = List.filter is_kept (tasks scenario) /\
  Forall (fun task => kept task = Ok true) (tasks scenario).
Proof.
  split; [reflexivity|].
  exact (filter_in_progress_keeps (tasks scenario) (tasks scenario) eq_refl).
Defined.

Lemma get_in_progress_tasks_all_or_nothing_witness :
  let s := initial scenario in
  In T1 ragged_listing /\
  kept T1 = Ok true /\
  Exists (fun task => is_object task = false) ragged_listing /\
  fst (get_in_progress_tasks ragged (JStr "P") s) = Ok [].
Proof.
  intros s.
  assert (Exists (fun task => is_object task = false) ragged_listing) as Hbad.
  { apply Exists_cons_tl, Exists_cons_hd. reflexivity. }
  split; [by left|]. split; [reflexivity|]. split; [exact Hbad|].
  exact (get_in_progress_tasks_all_or_nothing ragged (JStr "P") s
           (found (JArr ragged_listing)) scenario
           [("data", JArr ragged_listing)] ragged_listing
           eq_refl eq_refl eq_refl eq_refl Hbad).
Defined.

Lemma in_progress_scan_any_witness :
  Forall2 field_repr two_stages two_stages_fields /\
  extract_field "stage" two_stages_fields = Some "done" /\
  in_progress_scan two_stages = Ok true.
Proof.
  split; [exact two_stages_repr|]. split; [reflexivity|].
  exact (in_progress_scan_any two_stages two_stages_fields two_stages_repr).
Defined.

Lemma trigger_reads_last_fields_witness :
  let task_data := JObj [("custom_fields", JArr two_priorities)] in
  get task_data "custom_fields" (JArr []) = Ok (JArr two_priorities) /\
  Forall2 field_repr two_priorities two_priorities_fields /\
  value_of (last_field "priority" two_priorities_fields None) = Some "low" /\
  is_high_priority_in_progress task_data = false.
Proof.
  intros task_data. split; [reflexivity|]. split; [exact two_priorities_repr|].
  split; [reflexivity|].
  exact (trigger_reads_last_fields task_data two_priorities two_priorities_fields
           eq_refl two_priorities_repr).
Defined.

Lemma trigger_needs_every_field_witness :
  let fields := [enum_field "Stage" "In Progress"; enum_field "Priority" "High"] in
  is_high_priority_in_progress (task "T1" JNull fields) = true /\
  get T1_with_junk "custom_fields" (JArr []) = Ok (JArr (fields ++ [JNull])) /\
  Exists (fun j => is_object j = false) (fields ++ [JNull]) /\
  is_high_priority_in_progress T1_with_junk = false.
Proof.
  intros fields.
  assert (Exists (fun j => is_object j = false) (fields ++ [JNull])) as Hbad.
  { apply Exists_cons_tl, Exists_cons_tl, Exists_cons_hd. reflexivity. }
  split; [reflexivity|]. split; [reflexivity|]. split; [exact Hbad|].
  exact (trigger_needs_every_field T1_with_junk (fields ++ [JNull]) eq_refl Hbad).
Defined.

Lemma priority_rule_ignores_later_fields_witness :
  let s := initial backlog in
  get T4_with_junk "due_on" JNull = get T4 "due_on" JNull /\
  (1 <= count_named "priority" T4_fields)%nat /\
  handle_priority_based_due_date service (JStr "T4") T4_with_junk s =
  handle_priority_based_due_date service (JStr "T4") T4 s /\
  calls (snd (handle_priority_based_due_date service (JStr "T4") T4_with_junk s)) =
  [PutDueOn (JStr "T4") "2024-01-03"].
Proof.
  intros s.
  assert (1 <= count_named "priority" T4_fields)%nat as Hcount by (vm_compute; lia).
  split; [reflexivity|]. split; [exact Hcount|]. split; [|reflexivity].
  exact (priority_rule_ignores_later_fields service (JStr "T4") T4_with_junk T4
           [enum_field "Stage" "To Do"; enum_field "PRIORITY" "High"]
           T4_fields [JInt 7] s eq_refl eq_refl eq_refl T4_fields_repr Hcount).
Defined.

Lemma cascade_needs_project_witness :
  let s := initial scenario in
  get homeless "memberships" (JArr [JObj []]) = Ok (JArr []) /\
  index0 (JArr []) = Raise IndexError /\
  adjust_due_dates_for_in_progress service (JStr "T9") homeless s = (Ok tt, s).
Proof.
  intros s. split; [reflexivity|]. split; [reflexivity|].
  exact (cascade_needs_project service (JStr "T9") homeless s I).
Defined.

Lemma refused_update_is_not_recorded_witness :
  let s := initial scenario in
  getitem T2 "gid" = Ok (JStr "T2") /\
  eqb (JStr "T2") (JStr "T1") = false /\
  Datetime.shift_two_days (JStr "2024-01-05") = Ok "2024-01-07" /\
  adjust_one refusing (JStr "T1") T2 s =
  (Ok tt,
   {| processed_events := processed_events s; world := scenario;
      calls := calls s ++ [GetTask (JStr "T2"); PutDueOn (JStr "T2") "2024-01-07"] |}).
Proof.
  intros s. split; [reflexivity|]. split; [reflexivity|]. split; [reflexivity|].
  refine (proj1 (refused_update_is_not_recorded refusing (JStr "T1") T2 (JStr "T2")
                   (AStr "T2") s T2 _ (JStr "2024-01-05") (AStr "2024-01-05")
                   "2024-01-07" eq_refl eq_refl eq_refl _ eq_refl eq_refl eq_refl
                   eq_refl _ eq_refl) _ scenario _ _).
  - vm_compute. reflexivity.
  - apply not_elem_of_empty.
  - reflexivity.
  - discriminate.
Defined.

Lemma cascade_stops_at_task_without_gid_witness :
  let s := initial scenario in
  let loop ts := for_each ts (adjust_one service (JStr "T1")) s in
  getitem nameless "gid" = Raise KeyError /\
  snd (loop [T2; nameless; T1]) = snd (loop [T2]) /\
  calls (snd (loop [T2; nameless; T1])) =
  [GetTask (JStr "T2"); PutDueOn (JStr "T2") "2024-01-07"].
Proof.
  intros s loop. split; [reflexivity|]. split; [|reflexivity].
  exact (proj1 (cascade_stops_at_task_without_gid service (JStr "T1") [T2] [T1]
                  nameless KeyError s eq_refl)).
Defined.

Lemma only_post_is_processed_witness :
  let s := initial scenario in
  method get_without_challenge <> POST /\
  webhook service get_without_challenge s = (invalid_request, s).
Proof.
  intros s.
  assert (method get_without_challenge <> POST) as Hmethod by discriminate.
  split; [exact Hmethod|].
  exact (only_post_is_processed service get_without_challenge s Hmethod).
Defined.

Lemma events_without_identity_are_ignored_witness :
  let s := initial scenario in
  let request := delivery anonymous_events in
  request_events request = Ok anonymous_events /\
  Forall (fun event => has_identity event = false) anonymous_events /\
  webhook service request s = (success, s).
Proof.
  intros s request.
  assert (Forall (fun event => has_identity event = false) anonymous_events) as Hall.
  { repeat constructor. }
  split; [reflexivity|]. split; [exact Hall|].
  exact (events_without_identity_are_ignored service request anonymous_events s
           eq_refl (or_introl eq_refl) eq_refl Hall).
Defined.

Lemma event_touches_only_its_task_witness :
  let s := initial scenario in
  let s1 := snd (process_event service changed_T2 s) in
  event_key changed_T2 = Ok key_changed_T2 /\
  is_high_priority_in_progress T2 = false /\
  processed_events s1 = {[key_changed_T2]} ∪ processed_events s /\
  calls s1 = calls s ++ [GetTask (JStr "T2")].
Proof.
  intros s s1.
  assert (key_changed_T2 ∉ processed_events s) as Hfresh by apply not_elem_of_empty.
  destruct (event_touches_only_its_task service changed_T2
              (JObj [("gid", JStr "T2"); ("resource_type", JStr "task")])
              (JStr "T2") (JStr "changed") key_changed_T2 s T2
              (snd (fetch_task_details service (JStr "T2") (mark key_changed_T2 s)))
              eq_refl eq_refl eq_refl eq_refl Hfresh eq_refl eq_refl)
    as [Hledger _].
  split; [reflexivity|]. split; [reflexivity|]. split; [exact Hledger|].
  reflexivity.
Defined.



Lemma lookups_take_the_first_witness :
  get_workspace_id directory "secret" start =
  (Done (JStr "W1"), {| api_world := tt; requests := [GetWorkspaces] |}) /\
  get_project_id directory "secret" (JStr "W1") start =
  (Done (JStr "P1"), {| api_world := tt; requests := [GetProjects (JStr "W1")] |}).
Proof.
  destruct (lookups_take_the_first directory "secret" (JStr "W1") start
              (page ["W1"; "W2"]) _ _ eq_refl eq_refl) as [Hw _].
  destruct (lookups_take_the_first directory "secret" (JStr "W1") start
              (page ["P1"; "P2"]) _ _ eq_refl eq_refl) as [_ Hp].
  split; [exact (Hw tt eq_refl) | exact (Hp tt eq_refl)].
Defined.

Lemma main_needs_environment_witness :
  main directory no_token start = (Fail MissingAccessToken, start) /\
  main directory no_url start = (Fail MissingWebhookUrl, start).
Proof.
  split.
  - exact (proj1 (main_needs_environment directory no_token start) (or_introl eq_refl)).
  - refine (proj2 (main_needs_environment directory no_url start) "secret" eq_refl _
              (or_intror eq_refl)).
    discriminate.
Defined.


End MoreConcrete.
